(** * Inventory management and billing: a shallow embedding of [fp.py]

    The development follows the classes of the program:
    [Product], [OrderItem], [Sale], [InventoryManager] and [BillingSystem].

    Modelling choices.
    - Python objects that are shared and mutated in place ([Product]) live in
      a store ([heap]), and are named by their address.  The catalog
      ([InventoryManager.products], a [dict]) maps an id to an address, and
      a cart line ([OrderItem.product]) holds an address: a line keeps
      pointing to its object when the catalog entry is deleted or replaced.
    - The [dict] is an association list in insertion order, as Python
      iterates it.
    - Quantities and stock are Python [int]s, here [Z].  In the model of
      the whole session monetary amounts are exact rationals [Q]: it gives
      the meaning of the methods on exact numbers, and its statements are
      about the order of the calls, the objects and the lists.  Where a
      result depends on the arithmetic of floats (the discount of
      [apply_discount], the total that [remove_from_cart] recomputes) the
      methods are embedded a second time on binary64 numbers, in
      [Float64], with rounding, NaN and [OverflowError] as in Python.
    - A [str] is the string of its UTF-8 bytes: equality and [in] are the
      same on the bytes as on the characters.
    - [str.lower()] and the built-in [sum] on floats are not part of the
      program: they are parameters of the definitions that call them.
    - [print] appends a [Message] to [stdout]; a rewrite of one of the two
      CSV files appends a [FileWrite] to [writes].  Whether a rewrite
      completes is decided by the environment and is an argument ([io]) of
      every operation that saves.
    - [datetime.now()] is an argument ([now]) of [checkout]. *)

From Stdlib Require Import ZArith QArith Bool List String Ascii Lia Floats.
From stdpp Require Import base option list.
Import ListNotations.

Local Open Scope string_scope.
Local Open Scope list_scope.
Local Open Scope Z_scope.

(** ** Numbers *)

(** [x < y] on exact rationals, as a test. *)
Definition Qltb (x y : Q) : bool :=
  match (x ?= y)%Q with Lt => true | _ => false end.

(** [float(z)] on an [int], as [price * quantity] makes it of the
    quantity when the price is a float: the nearest binary64, ties to even;
    [None] is the [OverflowError] of an [int] beyond the range of a
    float. *)
Definition float_of_int (z : Z) : option float :=
  match binary_normalize prec emax z 0 false with
  | S754_infinity _ => None
  | sf => Some (SF2Prim sf)
  end.

(** ** Strings *)

(** [sub in s] on strings: [sub] occurs in [s] as a contiguous block. *)
Fixpoint str_in (sub s : string) : bool :=
  if String.prefix sub s then true
  else match s with
       | EmptyString => false
       | String _ s' => str_in sub s'
       end.

(** ** The data classes *)

Record Product := mkProduct {
  product_id : string;
  name : string;
  price : Q;
  stock_quantity : Z
}.

#[global] Instance Product_inhabited : Inhabited Product :=
  populate (mkProduct "" "" 0%Q 0).

(** An address of a [Product] object in the store. *)
Definition ref := nat.

Record OrderItem := mkOrderItem {
  product : ref;
  quantity : Z;
  total : Q
}.

Record Sale := mkSale {
  items : list OrderItem;
  total_amount : Q;
  datetime : Z;
  discount : Q;
  final_amount : Q
}.

(** [OrderItem.__init__]: the total is cached from the product's price. *)
Definition OrderItem_init (h : list Product) (r : ref) (q : Z) : OrderItem :=
  mkOrderItem r q (price (h !!! r) * inject_Z q)%Q.

(** [Sale.__init__] *)
Definition Sale_init (its : list OrderItem) (t : Q) (dt : Z) (d : Q) : Sale :=
  mkSale its t dt d (t - d)%Q.

(** ** Output *)

(** What the program prints; each constructor stands for one [print] of the
    source, with the values its text is formatted from. *)
Inductive Message :=
  | MsgProductIdExists        (* "Product ID already exists!" *)
  | MsgPriceNotPositive       (* "Price must be greater than zero!" *)
  | MsgStockNegative          (* "Stock quantity cannot be negative!" *)
  | MsgProductAdded           (* "Product added successfully!" *)
  | MsgProductNotFound        (* "Product not found!" *)
  | MsgProductUpdated         (* "Product updated successfully!" *)
  | MsgProductDeleted         (* "Product deleted successfully!" *)
  | MsgRemovedItem            (* "Removed item from cart." *)
  | MsgReducedItem            (* "Reduced item quantity in cart." *)
  | MsgItemNotInCart          (* "Item not found in cart!" *)
  | MsgCartEmpty              (* "Cart is empty!" *)
  | MsgPercentageRange        (* "Discount percentage must be between 0 and 100!" *)
  | MsgFixedRange (t : Q)     (* "Fixed discount must be between 0 and {total}!" *)
  | MsgInvalidDiscountType    (* "Invalid discount type! Use 'percentage' or 'fixed'." *)
  | MsgDiscountApplied (d : Q) (* "Discount applied: {discount} ..." *)
  | MsgInvalidDiscountAmount  (* "Invalid discount amount!" *)
  | MsgCheckoutCompleted      (* "Checkout completed successfully ..." *)
  | MsgCouldNotFindProduct    (* "Hmm ... could not find that product. Double-check the ID." *)
  | MsgQuantityNotPositive    (* "Quantity must be a positive whole number!" *)
  | MsgInsufficientStock (left : Z) (* "Insufficient stock ... only {stock_quantity} left." *)
  | MsgUpdatedQuantity        (* "Updated quantity in cart ..." *)
  | MsgAddedToCart.           (* "Added to cart ..." *)

(** A rewrite of a CSV file: the rows handed to the writer, and whether the
    rewrite completed. *)
Inductive FileWrite :=
  | WriteInventory (rows : list Product) (ok : bool)
  | WriteSales (rows : list (Z * Q * Q * Q)) (ok : bool).

(** ** The state of a session *)

Definition dict := list (string * ref).

Record State := mkState {
  heap : list Product;        (* the Product objects, by address *)
  products : dict;            (* InventoryManager.products *)
  cart : list OrderItem;      (* BillingSystem.cart *)
  sales : list Sale;          (* BillingSystem.sales *)
  stdout : list Message;
  writes : list FileWrite
}.

Definition set_heap (h : list Product) (st : State) : State :=
  mkState h (products st) (cart st) (sales st) (stdout st) (writes st).
Definition set_products (d : dict) (st : State) : State :=
  mkState (heap st) d (cart st) (sales st) (stdout st) (writes st).
Definition set_cart (c : list OrderItem) (st : State) : State :=
  mkState (heap st) (products st) c (sales st) (stdout st) (writes st).
Definition set_sales (s : list Sale) (st : State) : State :=
  mkState (heap st) (products st) (cart st) s (stdout st) (writes st).
Definition print (m : Message) (st : State) : State :=
  mkState (heap st) (products st) (cart st) (sales st) (stdout st ++ [m]) (writes st).
Definition log_write (w : FileWrite) (st : State) : State :=
  mkState (heap st) (products st) (cart st) (sales st) (stdout st) (writes st ++ [w]).

(** The object at an address. *)
Definition obj (st : State) (r : ref) : Product := heap st !!! r.

(** ** The dict operations the program uses *)

(** [d.get(k)] *)
Fixpoint dict_get (d : dict) (k : string) : option ref :=
  match d with
  | [] => None
  | (k', r) :: d' => if String.eqb k' k then Some r else dict_get d' k
  end.

(** [k in d] *)
Definition dict_mem (d : dict) (k : string) : bool :=
  match dict_get d k with Some _ => true | None => false end.

(** [d[k] = r]: a present key keeps its place, a new key goes last. *)
Fixpoint dict_set (d : dict) (k : string) (r : ref) : dict :=
  match d with
  | [] => [(k, r)]
  | (k', r') :: d' =>
      if String.eqb k' k then (k', r) :: d' else (k', r') :: dict_set d' k r
  end.

(** [del d[k]] *)
Fixpoint dict_del (d : dict) (k : string) : dict :=
  match d with
  | [] => []
  | (k', r) :: d' => if String.eqb k' k then d' else (k', r) :: dict_del d' k
  end.

(** [d.values()] *)
Definition dict_values (d : dict) : list ref := map snd d.
Definition dict_keys (d : dict) : list string := map fst d.

(** ** InventoryManager *)

(** [save_data]: rewrites the catalog file from the objects in the dict. *)
Definition save_data (io : bool) (st : State) : bool * State :=
  (io, log_write (WriteInventory (map (obj st) (dict_values (products st))) io) st).

(** [load_data], from the rows of the file that parsed. *)
Fixpoint load_rows (rows : list Product) (h : list Product) (d : dict)
  : list Product * dict :=
  match rows with
  | [] => (h, d)
  | p :: rows' => load_rows rows' (h ++ [p]) (dict_set d (product_id p) (length h))
  end.

Definition add_product (st : State) (pid nm : string) (pr : Q) (qty : Z)
    (io : bool) : bool * State :=
  if dict_mem (products st) pid then (false, print MsgProductIdExists st)
  else if Qle_bool pr 0 then (false, print MsgPriceNotPositive st)
  else if qty <? 0 then (false, print MsgStockNegative st)
  else
    let r := length (heap st) in
    let st1 := set_heap (heap st ++ [mkProduct pid nm pr qty]) st in
    let st2 := set_products (products st1 ++ [(pid, r)]) st1 in
    let (ok, st3) := save_data io st2 in
    if ok then (true, print MsgProductAdded st3) else (false, st3).

(** Assignments to the attributes of the object at [r]. *)
Definition set_name (r : ref) (nm : string) (st : State) : State :=
  let p := obj st r in
  set_heap (<[r := mkProduct (product_id p) nm (price p) (stock_quantity p)]> (heap st)) st.
Definition set_price (r : ref) (pr : Q) (st : State) : State :=
  let p := obj st r in
  set_heap (<[r := mkProduct (product_id p) (name p) pr (stock_quantity p)]> (heap st)) st.
Definition set_stock_quantity (r : ref) (qty : Z) (st : State) : State :=
  let p := obj st r in
  set_heap (<[r := mkProduct (product_id p) (name p) (price p) qty]> (heap st)) st.

Definition update_product (st : State) (pid : string) (nm : option string)
    (pr : option Q) (qty : option Z) (io : bool) : bool * State :=
  match dict_get (products st) pid with
  | None => (false, print MsgProductNotFound st)
  | Some r =>
      let st1 := match nm with Some n => set_name r n st | None => st end in
      let price_step :=
        match pr with
        | Some p => if Qle_bool p 0 then inl (print MsgPriceNotPositive st1)
                    else inr (set_price r p st1)
        | None => inr st1
        end in
      match price_step with
      | inl st' => (false, st')
      | inr st2 =>
          let stock_step :=
            match qty with
            | Some q => if q <? 0 then inl (print MsgStockNegative st2)
                        else inr (set_stock_quantity r q st2)
            | None => inr st2
            end in
          match stock_step with
          | inl st' => (false, st')
          | inr st3 =>
              let (ok, st4) := save_data io st3 in
              if ok then (true, print MsgProductUpdated st4) else (false, st4)
          end
      end
  end.

Definition delete_product (st : State) (pid : string) (io : bool) : bool * State :=
  if dict_mem (products st) pid then
    let st1 := set_products (dict_del (products st) pid) st in
    let (ok, st2) := save_data io st1 in
    if ok then (true, print MsgProductDeleted st2) else (false, st2)
  else (false, print MsgProductNotFound st).

(** The test of the loop of [search_product].  [lower] is [str.lower()], a
    built-in of Python and no part of the program: it is a parameter, and
    what is proved holds for every function on strings. *)
Definition search_match (lower : string -> string) (keyword : string)
    (p : Product) : bool :=
  str_in (lower keyword) (lower (name p))
  || String.eqb (lower keyword) (lower (product_id p)).

Definition search_product (lower : string -> string) (st : State)
    (keyword : string) : list ref :=
  List.filter (fun r => search_match lower keyword (obj st r))
    (dict_values (products st)).

Definition get_product (st : State) (pid : string) : option ref :=
  dict_get (products st) pid.

(** ** BillingSystem *)

(** [save_sales] *)
Definition sale_row (s : Sale) : Z * Q * Q * Q :=
  (datetime s, total_amount s, discount s, final_amount s).

Definition save_sales (io : bool) (st : State) : bool * State :=
  (io, log_write (WriteSales (map sale_row (sales st)) io) st).

(** [sum(item.total for item in self.cart)]: from 0, left to right. *)
Definition cart_total (c : list OrderItem) : Q :=
  fold_left (fun acc it => (acc + total it)%Q) c 0%Q.

(** The loop of [remove_from_cart] over the lines, with the store [h]:
    the message and the new cart when a line matches, nothing otherwise. *)
Fixpoint remove_loop (h : list Product) (pid : string) (qty : option Z)
    (c : list OrderItem) : option (Message * list OrderItem) :=
  match c with
  | [] => None
  | it :: c' =>
      if String.eqb (product_id (h !!! product it)) pid then
        match qty with
        | None => Some (MsgRemovedItem, c')
        | Some q =>
            if quantity it <=? q then Some (MsgRemovedItem, c')
            else
              let n := quantity it - q in
              Some (MsgReducedItem,
                    mkOrderItem (product it) n (price (h !!! product it) * inject_Z n)%Q :: c')
        end
      else
        match remove_loop h pid qty c' with
        | Some (m, c'') => Some (m, it :: c'')
        | None => None
        end
  end.

Definition remove_from_cart (st : State) (pid : string) (qty : option Z)
  : bool * State :=
  match remove_loop (heap st) pid qty (cart st) with
  | Some (m, c) => (true, print m (set_cart c st))
  | None => (false, print MsgItemNotInCart st)
  end.

Definition apply_discount (st : State) (discount_type : string) (value : Q)
  : Q * State :=
  match cart st with
  | [] => (0%Q, print MsgCartEmpty st)
  | _ :: _ =>
      let t := cart_total (cart st) in
      if String.eqb discount_type "percentage" then
        if Qltb value 0 || Qltb 100 value then (0%Q, print MsgPercentageRange st)
        else
          let d := (t * (value / 100))%Q in
          (d, print (MsgDiscountApplied d) st)
      else if String.eqb discount_type "fixed" then
        if Qltb value 0 || Qltb t value then (0%Q, print (MsgFixedRange t) st)
        else (value, print (MsgDiscountApplied value) st)
      else (0%Q, print MsgInvalidDiscountType st)
  end.

(** What a call yields: a value, or an exception; both with the state
    reached.  The one exception of the modelled methods is the
    [AttributeError] of [checkout] on a line whose product is no longer in
    the catalog ([get_product] gives [None]). *)
Inductive Exception := AttributeError.

Inductive outcome (A : Type) :=
  | Returned (a : A) (st : State)
  | Raised (e : Exception) (st : State).
Arguments Returned {A} a st.
Arguments Raised {A} e st.

(** The stock loop of [checkout]: [product.stock_quantity -= item.quantity]
    on the catalog's object of the line's id.  The flag is [false] when the
    lookup gave [None]; the store is the one reached by then. *)
Fixpoint adjust_stock (d : dict) (h : list Product) (c : list OrderItem)
  : bool * list Product :=
  match c with
  | [] => (true, h)
  | it :: c' =>
      match dict_get d (product_id (h !!! product it)) with
      | None => (false, h)
      | Some r =>
          let p := h !!! r in
          adjust_stock d
            (<[r := mkProduct (product_id p) (name p) (price p)
                              (stock_quantity p - quantity it)]> h) c'
      end
  end.

Definition checkout (st : State) (d : Q) (now : Z) (io_sales io_inv : bool)
  : outcome (option Sale) :=
  match cart st with
  | [] => Returned None (print MsgCartEmpty st)
  | _ :: _ =>
      let t := cart_total (cart st) in
      if Qltb d 0 || Qltb t d then Returned None (print MsgInvalidDiscountAmount st)
      else
        let sale := Sale_init (cart st) t now d in
        let st1 := set_sales (sales st ++ [sale]) st in
        let st2 := snd (save_sales io_sales st1) in
        match adjust_stock (products st2) (heap st2) (cart st2) with
        | (false, h) => Raised AttributeError (set_heap h st2)
        | (true, h) =>
            let st3 := set_heap h st2 in
            let st4 := snd (save_data io_inv st3) in
            let st5 := set_cart [] st4 in
            Returned (Some sale) (print MsgCheckoutCompleted st5)
        end
  end.

(** The loop of [add_to_cart] over the lines: the cart with the first line
    of the id increased by [q], when there is one. *)
Fixpoint merge_loop (h : list Product) (pid : string) (q : Z)
    (c : list OrderItem) : option (list OrderItem) :=
  match c with
  | [] => None
  | it :: c' =>
      if String.eqb (product_id (h !!! product it)) pid then
        let n := quantity it + q in
        Some (mkOrderItem (product it) n (price (h !!! product it) * inject_Z n)%Q :: c')
      else
        match merge_loop h pid q c' with
        | Some c'' => Some (it :: c'')
        | None => None
        end
  end.

Definition add_to_cart (st : State) (pid : string) (q : Z) : bool * State :=
  match get_product st pid with
  | None => (false, print MsgCouldNotFindProduct st)
  | Some r =>
      if q <=? 0 then (false, print MsgQuantityNotPositive st)
      else if stock_quantity (obj st r) <? q then
        (false, print (MsgInsufficientStock (stock_quantity (obj st r))) st)
      else
        match merge_loop (heap st) pid q (cart st) with
        | Some c => (true, print MsgUpdatedQuantity (set_cart c st))
        | None =>
            (true, print MsgAddedToCart
                     (set_cart (cart st ++ [OrderItem_init (heap st) r q]) st))
        end
  end.

(** ** Reports *)

(** [get_daily_sales]: the sales of a day, in the order of the history.
    [date] is [datetime.date()], the day of a time; with no target the day
    is that of [now]. *)
Definition get_daily_sales (date : Z -> Z) (st : State) (target_date : option Z)
    (now : Z) : list Sale :=
  let target := match target_date with Some t => t | None => date now end in
  List.filter (fun s => date (datetime s) =? target) (sales st).

(** [get_low_stock_products]: the products at or below the threshold, in
    the order of the catalog. *)
Definition get_low_stock_products (st : State) (threshold : Z) : list ref :=
  List.filter (fun r => stock_quantity (obj st r) <=? threshold)
    (dict_values (products st)).

(** The columns [load_sales] reads of a row [save_sales] wrote: the time,
    the total and the discount; the final amount is not read. *)
Definition read_sale_row (row : Z * Q * Q * Q) : Z * Q * Q :=
  let '(dt, t, d, _) := row in (dt, t, d).

(** ** Sessions *)

(** The state after the two constructors: the catalog and the history
    loaded from the rows of the files that parsed, an empty cart. *)
Definition load_sale (row : Z * Q * Q) : Sale :=
  let '(dt, t, d) := row in Sale_init [] t dt d.

Definition init_state (rows : list Product) (sale_rows : list (Z * Q * Q)) : State :=
  let (h, d) := load_rows rows [] [] in
  mkState h d [] (map load_sale sale_rows) [] [].

(** The public operations, with their arguments. *)
Inductive Op :=
  | AddProduct (pid nm : string) (pr : Q) (qty : Z) (io : bool)
  | UpdateProduct (pid : string) (nm : option string) (pr : option Q)
                  (qty : option Z) (io : bool)
  | DeleteProduct (pid : string) (io : bool)
  | AddToCart (pid : string) (q : Z)
  | RemoveFromCart (pid : string) (qty : option Z)
  | ApplyDiscount (discount_type : string) (value : Q)
  | Checkout (d : Q) (now : Z) (io_sales io_inv : bool).

(** One call; no state when the call raised (the session ends there). *)
Definition step (st : State) (o : Op) : option State :=
  match o with
  | AddProduct pid nm pr qty io => Some (snd (add_product st pid nm pr qty io))
  | UpdateProduct pid nm pr qty io => Some (snd (update_product st pid nm pr qty io))
  | DeleteProduct pid io => Some (snd (delete_product st pid io))
  | AddToCart pid q => Some (snd (add_to_cart st pid q))
  | RemoveFromCart pid qty => Some (snd (remove_from_cart st pid qty))
  | ApplyDiscount k v => Some (snd (apply_discount st k v))
  | Checkout d now io1 io2 =>
      match checkout st d now io1 io2 with
      | Returned _ st' => Some st'
      | Raised _ _ => None
      end
  end.

Fixpoint run (st : State) (ops : list Op) : option State :=
  match ops with
  | [] => Some st
  | o :: ops' =>
      match step st o with
      | Some st' => run st' ops'
      | None => None
      end
  end.

(** The states a session can be in. *)
Definition reachable (st : State) : Prop :=
  exists rows sale_rows ops, run (init_state rows sale_rows) ops = Some st.

(** * The cart on binary64 amounts

    The amounts of the program are Python floats: [float(input(...))] at
    the prompts, [float(row['price'])] in [load_data].  This part embeds
    the two methods of the cart whose results depend on the arithmetic of
    floats on the binary64 numbers of Rocq, which are those of Python:
    rounding, NaN and infinities are as in the program, and so is the
    [OverflowError] of [price * quantity] on a quantity beyond the range of
    a float.  The state holds what the two methods read and write: the
    objects, the cart and the output. *)
Module Float64.

(** A number that a method returns: the [int] 0, or a float. *)
Inductive number :=
  | Int (z : Z)
  | Float (f : float).

Record Product := mkProduct {
  product_id : string;
  name : string;
  price : float;
  stock_quantity : Z
}.

#[global] Instance Product_inhabited : Inhabited Product :=
  populate (mkProduct "" "" 0%float 0).

Record OrderItem := mkOrderItem {
  product : ref;
  quantity : Z;
  total : float
}.

Inductive Message :=
  | MsgRemovedItem            (* "Removed item from cart." *)
  | MsgReducedItem            (* "Reduced item quantity in cart." *)
  | MsgItemNotInCart          (* "Item not found in cart!" *)
  | MsgCartEmpty              (* "Cart is empty!" *)
  | MsgPercentageRange        (* "Discount percentage must be between 0 and 100!" *)
  | MsgFixedRange (t : float) (* "Fixed discount must be between 0 and {total}!" *)
  | MsgInvalidDiscountType    (* "Invalid discount type! Use 'percentage' or 'fixed'." *)
  | MsgDiscountApplied (d : float). (* "Discount applied: {discount} ..." *)

Record State := mkState {
  heap : list Product;
  cart : list OrderItem;
  stdout : list Message
}.

Definition set_cart (c : list OrderItem) (st : State) : State :=
  mkState (heap st) c (stdout st).
Definition print (m : Message) (st : State) : State :=
  mkState (heap st) (cart st) (stdout st ++ [m]).
Definition obj (st : State) (r : ref) : Product := heap st !!! r.

Inductive Exception := OverflowError.

Inductive outcome (A : Type) :=
  | Returned (a : A) (st : State)
  | Raised (e : Exception) (st : State).
Arguments Returned {A} a st.
Arguments Raised {A} e st.

(** [sum] of floats from 0, left to right: the built-in up to
    Python 3.11.  Later versions add with a compensation; every version
    gives the one total of a cart of one line. *)
Definition sum_left (l : list float) : float :=
  fold_left (fun acc x => (acc + x)%float) l 0%float.

(** [apply_discount].  [sum] is the built-in on the totals of the
    lines. *)
Definition apply_discount (sum : list float -> float) (st : State)
    (discount_type : string) (value : float) : number * State :=
  match cart st with
  | [] => (Int 0, print MsgCartEmpty st)
  | _ :: _ =>
      let t := sum (map total (cart st)) in
      if String.eqb discount_type "percentage" then
        if (value <? 0)%float || (100 <? value)%float then
          (Int 0, print MsgPercentageRange st)
        else
          let d := (t * (value / 100))%float in
          (Float d, print (MsgDiscountApplied d) st)
      else if String.eqb discount_type "fixed" then
        if (value <? 0)%float || (t <? value)%float then
          (Int 0, print (MsgFixedRange t) st)
        else (Float value, print (MsgDiscountApplied value) st)
      else (Int 0, print MsgInvalidDiscountType st)
  end.

(** What the loop of [remove_from_cart] comes to: no line of the id; a
    message and the new cart; or [OverflowError] with the cart as it is
    by then, the quantity of the line already lowered and its total not
    yet set. *)
Inductive removal :=
  | NotFound
  | Done (m : Message) (c : list OrderItem)
  | Overflow (c : list OrderItem).

Fixpoint remove_loop (h : list Product) (pid : string) (qty : option Z)
    (c : list OrderItem) : removal :=
  match c with
  | [] => NotFound
  | it :: c' =>
      if String.eqb (product_id (h !!! product it)) pid then
        match qty with
        | None => Done MsgRemovedItem c'
        | Some q =>
            if quantity it <=? q then Done MsgRemovedItem c'
            else
              let n := quantity it - q in
              match float_of_int n with
              | Some f =>
                  Done MsgReducedItem
                    (mkOrderItem (product it) n (price (h !!! product it) * f)%float
                     :: c')
              | None => Overflow (mkOrderItem (product it) n (total it) :: c')
              end
        end
      else
        match remove_loop h pid qty c' with
        | NotFound => NotFound
        | Done m c'' => Done m (it :: c'')
        | Overflow c'' => Overflow (it :: c'')
        end
  end.

Definition remove_from_cart (st : State) (pid : string) (qty : option Z)
  : outcome bool :=
  match remove_loop (heap st) pid qty (cart st) with
  | Done m c => Returned true (print m (set_cart c st))
  | Overflow c => Raised OverflowError (set_cart c st)
  | NotFound => Returned false (print MsgItemNotInCart st)
  end.

(** A cart of one line whose total is 100. *)
Definition hundred_state : State :=
  mkState [mkProduct "P1" "Widget" 100%float 10]
          [mkOrderItem 0%nat 1 100%float] [].

(** A cart of 3 Widgets at 2.5. *)
Definition widget_state : State :=
  mkState [mkProduct "P1" "Widget" 2.5%float 10]
          [mkOrderItem 0%nat 3 7.5%float] [].

End Float64.

(** * The vocabulary of the properties *)

(** ** Well-formed states

    The catalog's entries point into the store, to an object of the entry's
    id; the lines of the cart point into the store, and no two lines are of
    one id ([add_to_cart] increases the line of an id it finds). *)

(** The id of a line: [item.product.product_id]. *)
Definition line_id (h : list Product) (it : OrderItem) : string :=
  product_id (h !!! product it).

Definition catalog_ok (h : list Product) (d : dict) : Prop :=
  forall k r, In (k, r) d -> (r < length h)%nat /\ product_id (h !!! r) = k.

Definition cart_ok (h : list Product) (c : list OrderItem) : Prop :=
  (forall it, In it c -> (product it < length h)%nat) /\
  NoDup (map (line_id h) c).

Definition wf (st : State) : Prop :=
  catalog_ok (heap st) (products st) /\ cart_ok (heap st) (cart st).

(** [h'] extends [h]: the objects of [h] are in [h'], with their ids. *)
Definition heap_ext (h h' : list Product) : Prop :=
  (length h <= length h')%nat /\
  forall r, (r < length h)%nat -> product_id (h' !!! r) = product_id (h !!! r).

(** ** Sums and the outcome of a checkout *)


(** The state a completed checkout leaves, from the store [h'] the stock
    loop reached. *)
Definition checked_out (st : State) (sale : Sale) (h' : list Product)
    (io_sales io_inv : bool) : State :=
  print MsgCheckoutCompleted
    (set_cart []
       (snd (save_data io_inv
          (set_heap h'
             (snd (save_sales io_sales (set_sales (sales st ++ [sale]) st))))))).

(** ** Keywords up to case *)



(** *** ASCII text

    On a text of ASCII characters [str.lower()] turns the capitals A to Z
    into a to z and keeps every other character. *)
Fixpoint is_ascii (s : string) : Prop :=
  match s with
  | EmptyString => True
  | String c s' => (N_of_ascii c < 128)%N /\ is_ascii s'
  end.

Definition lower_ascii (c : ascii) : ascii :=
  let n := N_of_ascii c in
  if ((65 <=? n) && (n <=? 90))%N then ascii_of_N (n + 32) else c.

Fixpoint ascii_lower (s : string) : string :=
  match s with
  | EmptyString => EmptyString
  | String c s' => String (lower_ascii c) (ascii_lower s')
  end.

(** The same reading said without a lowered form: two characters are the
    same letter when they are equal or one is the capital (A to Z) of the
    other; two strings are equal up to case when they are so character by
    character; a string occurs in another up to case when it is equal up
    to case to a block of it. *)
Definition is_capital (c : ascii) : Prop :=
  (65 <= N_of_ascii c)%N /\ (N_of_ascii c <= 90)%N.

Definition same_letter (a b : ascii) : Prop :=
  a = b \/
  (is_capital a /\ N_of_ascii b = (N_of_ascii a + 32)%N) \/
  (is_capital b /\ N_of_ascii a = (N_of_ascii b + 32)%N).

Fixpoint caseless_eq (s t : string) : Prop :=
  match s, t with
  | EmptyString, EmptyString => True
  | String a s', String b t' => same_letter a b /\ caseless_eq s' t'
  | _, _ => False
  end.

Definition caseless_in (sub s : string) : Prop :=
  exists pre mid post, s = (pre ++ mid ++ post)%string /\ caseless_eq sub mid.

(** ** Quantities in the cart *)

(** The units of an id that the cart holds, over all its lines. *)
Fixpoint cart_quantity (h : list Product) (pid : string) (c : list OrderItem) : Z :=
  match c with
  | [] => 0
  | it :: c' =>
      (if String.eqb (line_id h it) pid then quantity it else 0)
      + cart_quantity h pid c'
  end.

(** ** Prices and totals above 0 *)




(** An [int] that converts to a float: [price * z] with a float price
    does not raise [OverflowError]. *)
Definition converts (z : Z) : Prop := float_of_int z <> None.

(** The last row of an id in the rows of the catalog file. *)
Definition last_row (rows : list Product) (pid : string) : option Product :=
  List.find (fun p => String.eqb (product_id p) pid) (rev rows).

(** ** Sessions used as examples *)

(** The cart of the scenario: a Widget at 9.99 with 10 in stock, 3 of them
    in the cart. *)
Definition widget_ops : list Op :=
  [AddProduct "P1" "Widget" 9.99%Q 10 true; AddToCart "P1" 3].

Definition widget_state : State :=
  Eval vm_compute in default (init_state [] []) (run (init_state [] []) widget_ops).

(** A Widget with 10 in stock, 6 of them in the cart. *)
Definition oversell_ops : list Op :=
  [AddProduct "P1" "Widget" 9.99%Q 10 true; AddToCart "P1" 6].

Definition oversell_state : State :=
  Eval vm_compute in default (init_state [] []) (run (init_state [] []) oversell_ops).

(** The session that adds 6 and 6 again, and checks out. *)
Definition oversold_ops : list Op :=
  [AddProduct "P1" "Widget" 9.99%Q 10 true;
   AddToCart "P1" 6; AddToCart "P1" 6;
   Checkout 0%Q 0 true true].

Definition oversold_state : State :=
  Eval vm_compute in default (init_state [] []) (run (init_state [] []) oversold_ops).

(** The Widget deleted from the catalog while 3 of it are in the cart. *)
Definition orphan_ops : list Op :=
  [AddProduct "P1" "Widget" 9.99%Q 10 true; AddToCart "P1" 3;
   DeleteProduct "P1" true].

Definition orphan_state : State :=
  Eval vm_compute in default (init_state [] []) (run (init_state [] []) orphan_ops).


(** * Properties *)

(** ** Comparisons on [Q] *)

Lemma Qltb_lt (x y : Q) : Qltb x y = true <-> (x < y)%Q.
Proof.
  unfold Qltb. rewrite Qlt_alt.
  destruct (x ?= y)%Q; split; congruence.
Qed.

Lemma Qltb_ge (x y : Q) : Qltb x y = false <-> (y <= x)%Q.
Proof.
  split; intros H.
  - apply Qnot_lt_le. intros Hlt. apply Qltb_lt in Hlt. congruence.
  - destruct (Qltb x y) eqn:E; [|reflexivity].
    apply Qltb_lt in E. exfalso. exact (Qle_not_lt _ _ H E).
Qed.

Lemma Qle_bool_gt (x y : Q) : Qle_bool x y = false <-> (y < x)%Q.
Proof.
  split; intros H.
  - apply Qnot_le_lt. intros Hle. apply Qle_bool_iff in Hle. congruence.
  - destruct (Qle_bool x y) eqn:E; [|reflexivity].
    apply Qle_bool_iff in E. exfalso. exact (Qle_not_lt _ _ E H).
Qed.

Lemma range_test_false (lo hi v : Q) :
  Qltb v lo || Qltb hi v = false <-> (lo <= v)%Q /\ (v <= hi)%Q.
Proof. rewrite orb_false_iff, !Qltb_ge. tauto. Qed.

Lemma range_test_true (lo hi v : Q) :
  Qltb v lo || Qltb hi v = true <-> (v < lo)%Q \/ (hi < v)%Q.
Proof. rewrite orb_true_iff, !Qltb_lt. tauto. Qed.

(** ** The dict *)

Lemma dict_get_app_new (d : dict) (k : string) (r : ref) :
  dict_get d k = None -> dict_get (d ++ [(k, r)]) k = Some r.
Proof.
  induction d as [|[k' r'] d IH]; simpl; intros H.
  - now rewrite String.eqb_refl.
  - destruct (String.eqb k' k); [discriminate | auto].
Qed.

Lemma dict_get_app_other (d : dict) (k k' : string) (r : ref) :
  k' <> k -> dict_get (d ++ [(k', r)]) k = dict_get d k.
Proof.
  intros Hne. induction d as [|[k0 r0] d IH]; simpl.
  - apply String.eqb_neq in Hne. now rewrite Hne.
  - now rewrite IH.
Qed.

Lemma dict_get_In (d : dict) (k : string) (r : ref) :
  dict_get d k = Some r -> In (k, r) d.
Proof.
  induction d as [|[k' r'] d IH]; simpl; [discriminate|].
  destruct (String.eqb k' k) eqn:E; intros H.
  - apply String.eqb_eq in E. left. congruence.
  - right. auto.
Qed.

Lemma dict_get_None (d : dict) (k : string) :
  dict_get d k = None <-> ~ In k (dict_keys d).
Proof.
  induction d as [|[k' r'] d IH]; simpl; [tauto|].
  destruct (String.eqb k' k) eqn:E.
  - apply String.eqb_eq in E. split; [discriminate | tauto].
  - apply String.eqb_neq in E. rewrite IH. tauto.
Qed.

Lemma dict_mem_false (d : dict) (k : string) :
  dict_mem d k = false <-> dict_get d k = None.
Proof. unfold dict_mem. destruct (dict_get d k); split; congruence. Qed.

(** ** The store *)

Lemma heap_lookup_new (h : list Product) (p : Product) :
  (h ++ [p]) !!! length h = p.
Proof. now apply list_lookup_total_middle. Qed.

Lemma heap_lookup_old (h : list Product) (p : Product) (r : ref) :
  (r < length h)%nat -> (h ++ [p]) !!! r = h !!! r.
Proof. intros H. now apply lookup_total_app_l. Qed.

Lemma heap_insert_id (h : list Product) (r r' : ref) (p : Product) :
  product_id p = product_id (h !!! r) ->
  product_id (<[r := p]> h !!! r') = product_id (h !!! r').
Proof.
  intros Hp. destruct (Nat.lt_ge_cases r (length h)) as [Hlt | Hge].
  - destruct (Nat.eq_dec r r') as [<- | Hne].
    + now rewrite list_lookup_total_insert_eq.
    + now rewrite list_lookup_total_insert_ne.
  - now rewrite list_insert_ge.
Qed.

(** ** Well-formed states are kept by every operation *)

Lemma heap_ext_insert (h : list Product) (r : ref) (p : Product) :
  product_id p = product_id (h !!! r) -> heap_ext h (<[r := p]> h).
Proof.
  intros Hp. split.
  - now rewrite length_insert.
  - intros r' _. now apply heap_insert_id.
Qed.

Lemma heap_ext_app (h : list Product) (p : Product) : heap_ext h (h ++ [p]).
Proof.
  split.
  - rewrite length_app. lia.
  - intros r Hr. now rewrite heap_lookup_old.
Qed.

Lemma catalog_ok_ext (h h' : list Product) (d : dict) :
  heap_ext h h' -> catalog_ok h d -> catalog_ok h' d.
Proof.
  intros [Hlen Hid] Hd k r Hin. destruct (Hd k r Hin) as [Hr Hk].
  split; [lia | now rewrite Hid].
Qed.

Lemma line_ids_ext (h h' : list Product) (c : list OrderItem) :
  heap_ext h h' -> (forall it, In it c -> (product it < length h)%nat) ->
  map (line_id h') c = map (line_id h) c.
Proof.
  intros [_ Hid] Hc. apply map_ext_in. intros it Hin.
  unfold line_id. now apply Hid, Hc.
Qed.

Lemma cart_ok_ext (h h' : list Product) (c : list OrderItem) :
  heap_ext h h' -> cart_ok h c -> cart_ok h' c.
Proof.
  intros Hext [Hrefs Hnd]. split.
  - intros it Hin. specialize (Hrefs it Hin). destruct Hext. lia.
  - now rewrite (line_ids_ext h h' c Hext Hrefs).
Qed.

Lemma wf_set_heap (st : State) (h' : list Product) :
  heap_ext (heap st) h' -> wf st -> wf (set_heap h' st).
Proof.
  intros Hext [Hd Hc]. split; simpl.
  - eapply catalog_ok_ext; eauto.
  - eapply cart_ok_ext; eauto.
Qed.

Lemma wf_print (st : State) (m : Message) : wf st -> wf (print m st).
Proof. intros H. exact H. Qed.

Lemma wf_log_write (st : State) (w : FileWrite) : wf st -> wf (log_write w st).
Proof. intros H. exact H. Qed.

(** *** The catalog operations *)

Lemma dict_del_In (d : dict) (k0 : string) (e : string * ref) :
  In e (dict_del d k0) -> In e d.
Proof.
  induction d as [|[k' r'] d IH]; simpl; [tauto|].
  destruct (String.eqb k' k0); simpl; tauto.
Qed.

Lemma dict_set_In (d : dict) (k0 : string) (r0 : ref) (e : string * ref) :
  In e (dict_set d k0 r0) -> e = (k0, r0) \/ In e d.
Proof.
  induction d as [|[k' r'] d IH]; simpl; [intuition congruence|].
  destruct (String.eqb k' k0) eqn:E; simpl.
  - apply String.eqb_eq in E. subst k'.
    intros [<- | H]; [left; reflexivity | right; right; exact H].
  - intros [<- | H]; [right; left; reflexivity|].
    destruct (IH H); [left | right; right]; assumption.
Qed.

Lemma catalog_ok_new (h : list Product) (d : dict) (p : Product) :
  catalog_ok h d -> catalog_ok (h ++ [p]) (d ++ [(product_id p, length h)]).
Proof.
  intros Hd k r Hin. apply in_app_iff in Hin. destruct Hin as [Hin | [E | []]].
  - eapply catalog_ok_ext; eauto using heap_ext_app.
  - inversion E; subst. rewrite heap_lookup_new, length_app. simpl. split; [lia | reflexivity].
Qed.

Lemma wf_add_product st pid nm pr qty io :
  wf st -> wf (snd (add_product st pid nm pr qty io)).
Proof.
  intros Hwf. unfold add_product.
  destruct (dict_mem (products st) pid); [exact Hwf|].
  destruct (Qle_bool pr 0); [exact Hwf|].
  destruct (qty <? 0); [exact Hwf|].
  assert (wf (set_products (products st ++ [(pid, length (heap st))])
                (set_heap (heap st ++ [mkProduct pid nm pr qty]) st))) as H.
  { destruct Hwf as [Hd Hc]. split; simpl.
    - exact (catalog_ok_new (heap st) (products st) (mkProduct pid nm pr qty) Hd).
    - eapply cart_ok_ext; eauto using heap_ext_app. }
  simpl. destruct io; exact H.
Qed.

Lemma wf_set_name st r nm : wf st -> wf (set_name r nm st).
Proof. intros H. apply wf_set_heap; [|exact H]. now apply heap_ext_insert. Qed.

Lemma wf_set_price st r pr : wf st -> wf (set_price r pr st).
Proof. intros H. apply wf_set_heap; [|exact H]. now apply heap_ext_insert. Qed.

Lemma wf_set_stock_quantity st r qty : wf st -> wf (set_stock_quantity r qty st).
Proof. intros H. apply wf_set_heap; [|exact H]. now apply heap_ext_insert. Qed.

Lemma wf_update_product st pid nm pr qty io :
  wf st -> wf (snd (update_product st pid nm pr qty io)).
Proof.
  intros Hwf. unfold update_product.
  destruct (dict_get (products st) pid) as [r|]; [|exact Hwf].
  assert (wf (match nm with Some n => set_name r n st | None => st end)) as H1.
  { destruct nm; [now apply wf_set_name | exact Hwf]. }
  revert H1. generalize (match nm with Some n => set_name r n st | None => st end).
  intros st1 H1.
  destruct pr as [p|]; [destruct (Qle_bool p 0); [exact H1|]|];
    (destruct qty as [q|]; [destruct (q <? 0)|]); destruct io.
  all: first
    [ exact H1
    | exact (wf_set_price _ r p H1)
    | exact (wf_set_stock_quantity _ r q H1)
    | exact (wf_set_stock_quantity _ r q (wf_set_price _ r p H1)) ].
Qed.

Lemma wf_delete_product st pid io :
  wf st -> wf (snd (delete_product st pid io)).
Proof.
  intros Hwf. unfold delete_product.
  destruct (dict_mem (products st) pid); [|exact Hwf].
  assert (wf (set_products (dict_del (products st) pid) st)) as H.
  { destruct Hwf as [Hd Hc]. split; [|exact Hc].
    intros k r Hin. apply Hd. exact (dict_del_In _ _ _ Hin). }
  simpl. destruct io; exact H.
Qed.

(** *** The cart operations *)

Lemma merge_loop_Some h pid q c c' :
  merge_loop h pid q c = Some c' ->
  map product c' = map product c /\ map (line_id h) c' = map (line_id h) c.
Proof.
  revert c'. induction c as [|it c IH]; simpl; intros c' H; [discriminate|].
  destruct (String.eqb (product_id (h !!! product it)) pid).
  - inversion H; subst. simpl. split; reflexivity.
  - destruct (merge_loop h pid q c) as [c''|]; [|discriminate].
    inversion H; subst. destruct (IH c'' eq_refl) as [E1 E2].
    simpl. now rewrite E1, E2.
Qed.

Lemma merge_loop_None h pid q c :
  merge_loop h pid q c = None -> ~ In pid (map (line_id h) c).
Proof.
  induction c as [|it c IH]; simpl; intros H; [tauto|].
  destruct (String.eqb (product_id (h !!! product it)) pid) eqn:E; [discriminate|].
  destruct (merge_loop h pid q c); [discriminate|].
  apply String.eqb_neq in E. intros [Hid | Hin]; [exact (E Hid) | exact (IH eq_refl Hin)].
Qed.

Lemma cart_refs_of_map (h : list Product) (c c' : list OrderItem) :
  map product c' = map product c ->
  (forall it, In it c -> (product it < length h)%nat) ->
  forall it, In it c' -> (product it < length h)%nat.
Proof.
  intros E Hc it Hin. apply (in_map product) in Hin. rewrite E in Hin.
  apply in_map_iff in Hin. destruct Hin as (it0 & <- & Hin0). now apply Hc.
Qed.

Lemma wf_add_to_cart st pid q : wf st -> wf (snd (add_to_cart st pid q)).
Proof.
  intros Hwf. unfold add_to_cart, get_product.
  destruct (dict_get (products st) pid) as [r|] eqn:Hget; [|exact Hwf].
  destruct (q <=? 0); [exact Hwf|].
  destruct (stock_quantity (obj st r) <? q); [exact Hwf|].
  destruct Hwf as [Hd [Hrefs Hnd]].
  destruct (merge_loop (heap st) pid q (cart st)) as [c|] eqn:Hm.
  - destruct (merge_loop_Some _ _ _ _ _ Hm) as [E1 E2].
    split; [exact Hd|]. split; simpl.
    + eapply cart_refs_of_map; eauto.
    + now rewrite E2.
  - apply merge_loop_None in Hm.
    destruct (Hd pid r (dict_get_In _ _ _ Hget)) as [Hr Hid].
    split; [exact Hd|]. split; simpl.
    + intros it Hin. apply in_app_iff in Hin.
      destruct Hin as [Hin | [<- | []]]; [now apply Hrefs | exact Hr].
    + rewrite map_app. simpl. unfold line_id at 2. simpl. rewrite Hid.
      apply NoDup_app. repeat split; [exact Hnd | | apply NoDup_singleton].
      intros x Hx Hp. apply list_elem_of_singleton in Hp. subst x.
      apply Hm. now apply list_elem_of_In.
Qed.

Lemma remove_loop_Some h pid qty c m c' :
  remove_loop h pid qty c = Some (m, c') ->
  map product c' `sublist_of` map product c /\
  map (line_id h) c' `sublist_of` map (line_id h) c.
Proof.
  revert c'. induction c as [|it c IH]; simpl; intros c' H; [discriminate|].
  destruct (String.eqb (product_id (h !!! product it)) pid).
  - destruct qty as [n|].
    + destruct (quantity it <=? n); inversion H; subst; simpl.
      * split; now apply sublist_cons.
      * split; reflexivity.
    + inversion H; subst. split; now apply sublist_cons.
  - destruct (remove_loop h pid qty c) as [[m' c'']|]; [|discriminate].
    inversion H; subst. destruct (IH c'' eq_refl) as [S1 S2].
    simpl. split; now apply sublist_skip.
Qed.

Lemma wf_remove_from_cart st pid qty :
  wf st -> wf (snd (remove_from_cart st pid qty)).
Proof.
  intros Hwf. unfold remove_from_cart.
  destruct (remove_loop (heap st) pid qty (cart st)) as [[m c]|] eqn:Hr; [|exact Hwf].
  destruct (remove_loop_Some _ _ _ _ _ _ Hr) as [S1 S2].
  destruct Hwf as [Hd [Hrefs Hnd]]. split; [exact Hd|]. split; simpl.
  - intros it Hin. apply (in_map product), list_elem_of_In in Hin.
    apply (sublist_subseteq _ _ S1) in Hin.
    apply list_elem_of_In, in_map_iff in Hin.
    destruct Hin as (it0 & <- & Hin0). now apply Hrefs.
  - eapply sublist_NoDup; eauto.
Qed.

Lemma wf_apply_discount st k v : wf st -> wf (snd (apply_discount st k v)).
Proof.
  intros Hwf. unfold apply_discount.
  destruct (cart st); [exact Hwf|].
  destruct (String.eqb k "percentage");
    [destruct (Qltb v 0 || Qltb 100 v); exact Hwf|].
  destruct (String.eqb k "fixed"); [|exact Hwf].
  destruct (Qltb v 0 || Qltb _ v); exact Hwf.
Qed.

(** The stock loop keeps every object's id, name and price, and the size of
    the store. *)
Lemma adjust_stock_frame d h c b h' :
  adjust_stock d h c = (b, h') ->
  length h' = length h /\
  forall r, product_id (h' !!! r) = product_id (h !!! r) /\
            name (h' !!! r) = name (h !!! r) /\
            price (h' !!! r) = price (h !!! r).
Proof.
  revert h. induction c as [|it c IH]; simpl; intros h H.
  - inversion H; subst. auto.
  - destruct (dict_get d (product_id (h !!! product it))) as [r0|].
    + destruct (IH _ H) as [Hlen Hf]. rewrite length_insert in Hlen.
      split; [exact Hlen|]. intros r. destruct (Hf r) as (E1 & E2 & E3).
      rewrite E1, E2, E3. clear.
      destruct (Nat.lt_ge_cases r0 (length h)) as [Hlt | Hge];
        [|now rewrite list_insert_ge].
      destruct (Nat.eq_dec r0 r) as [<- | Hne].
      * now rewrite list_lookup_total_insert_eq.
      * now rewrite list_lookup_total_insert_ne.
    + inversion H; subst. auto.
Qed.

Lemma adjust_stock_ext d h c b h' :
  adjust_stock d h c = (b, h') -> heap_ext h h'.
Proof.
  intros H. destruct (adjust_stock_frame _ _ _ _ _ H) as [Hlen Hf].
  split; [lia|]. intros r _. apply Hf.
Qed.

Lemma wf_checkout st d now io1 io2 a st' :
  wf st -> checkout st d now io1 io2 = Returned a st' -> wf st'.
Proof.
  intros Hwf. unfold checkout.
  destruct (cart st) as [|it0 c0] eqn:Hc.
  { intros H. inversion H; subst. exact Hwf. }
  destruct (Qltb d 0 || Qltb _ d).
  { intros H. inversion H; subst. exact Hwf. }
  simpl. rewrite Hc.
  destruct (adjust_stock (products st) (heap st) (it0 :: c0)) as [[|] h] eqn:Ha;
    intros H; inversion H; subst.
  destruct Hwf as [Hd _]. split; simpl.
  - eapply catalog_ok_ext; eauto using adjust_stock_ext.
  - split; [intros it []| constructor].
Qed.

(** *** Sessions *)

Lemma load_rows_ok rows h d h' d' :
  catalog_ok h d -> load_rows rows h d = (h', d') -> catalog_ok h' d'.
Proof.
  revert h d. induction rows as [|p rows IH]; simpl; intros h d Hd H.
  - inversion H; subst. exact Hd.
  - apply (IH _ _) in H; [exact H|]. clear H IH.
    intros k r Hin. apply dict_set_In in Hin. destruct Hin as [E | Hin].
    + inversion E; subst. rewrite heap_lookup_new, length_app. simpl.
      split; [lia | reflexivity].
    + eapply catalog_ok_ext; eauto using heap_ext_app.
Qed.

Lemma wf_init rows sale_rows : wf (init_state rows sale_rows).
Proof.
  unfold init_state. destruct (load_rows rows [] []) as [h d] eqn:E.
  split; simpl.
  - eapply load_rows_ok; [|exact E]. intros k r [].
  - split; [intros it [] | constructor].
Qed.

Lemma wf_step st o st' : wf st -> step st o = Some st' -> wf st'.
Proof.
  intros Hwf. destruct o; simpl; intros H.
  - inversion H; subst. now apply wf_add_product.
  - inversion H; subst. now apply wf_update_product.
  - inversion H; subst. now apply wf_delete_product.
  - inversion H; subst. now apply wf_add_to_cart.
  - inversion H; subst. now apply wf_remove_from_cart.
  - inversion H; subst. now apply wf_apply_discount.
  - destruct (checkout st d now io_sales io_inv) as [a s|e s] eqn:E; [|discriminate].
    inversion H; subst. eapply wf_checkout; eauto.
Qed.

Lemma wf_run ops : forall st st', wf st -> run st ops = Some st' -> wf st'.
Proof.
  induction ops as [|o ops IH]; simpl; intros st st' Hwf H.
  - inversion H; subst. exact Hwf.
  - destruct (step st o) as [st1|] eqn:E; [|discriminate].
    eapply IH; [|exact H]. eapply wf_step; eauto.
Qed.

Lemma reachable_wf st : reachable st -> wf st.
Proof.
  intros (rows & sale_rows & ops & H). eapply wf_run; [|exact H]. apply wf_init.
Qed.

(** ** Checkout *)



(** The stock loop completes exactly when every line's id is in the
    catalog. *)
Lemma adjust_stock_completes d h c :
  fst (adjust_stock d h c) = true <->
  forall it, In it c -> dict_get d (line_id h it) <> None.
Proof.
  revert h. induction c as [|it c IH]; simpl; intros h.
  - split; [intros _ it [] | reflexivity].
  - fold (line_id h it).
    destruct (dict_get d (line_id h it)) as [r0|] eqn:Hget.
    + rewrite IH. split; intros H it' Hin.
      * destruct Hin as [<- | Hin]; [congruence|].
        specialize (H it' Hin). unfold line_id in *.
        now rewrite heap_insert_id in H.
      * specialize (H it' (or_intror Hin)). unfold line_id in *.
        now rewrite heap_insert_id.
    + simpl. split; [discriminate|]. intros H.
      exfalso. exact (H it (or_introl eq_refl) Hget).
Qed.

(** What the completed loop does to the stock: with lines of distinct ids,
    the catalog object of a line's id loses the line's quantity, and the
    objects of no line are as they were. *)
Lemma adjust_stock_stock d h c h' :
  catalog_ok h d -> NoDup (map (line_id h) c) ->
  adjust_stock d h c = (true, h') ->
  (forall it r, In it c -> dict_get d (line_id h it) = Some r ->
     stock_quantity (h' !!! r) = stock_quantity (h !!! r) - quantity it) /\
  (forall r, (forall it, In it c -> dict_get d (line_id h it) <> Some r) ->
     h' !!! r = h !!! r).
Proof.
  revert h. induction c as [|it c IH]; simpl; intros h Hd Hnd H.
  - inversion H; subst. split; [intros it r [] | reflexivity].
  - fold (line_id h it) in H.
    destruct (dict_get d (line_id h it)) as [r0|] eqn:Hget; [|discriminate].
    apply NoDup_cons in Hnd. destruct Hnd as [Hnotin Hnd].
    destruct (Hd _ _ (dict_get_In _ _ _ Hget)) as [Hr0 Hid0].
    set (p0 := h !!! r0) in *.
    set (h1 := <[r0 := mkProduct (product_id p0) (name p0) (price p0)
                         (stock_quantity p0 - quantity it)]> h) in *.
    assert (heap_ext h h1) as Hext by now apply heap_ext_insert.
    assert (forall x, line_id h1 x = line_id h x) as Hline.
    { intros x. unfold line_id, h1. now apply heap_insert_id. }
    assert (map (line_id h1) c = map (line_id h) c) as Hmap.
    { apply map_ext. exact Hline. }
    destruct (IH h1) as [IH1 IH2];
      [eapply catalog_ok_ext; eauto | now rewrite Hmap | exact H |].
    assert (forall x, In x c -> dict_get d (line_id h x) <> Some r0) as Hfresh.
    { intros x Hx Hgx. apply Hnotin.
      destruct (Hd _ _ (dict_get_In _ _ _ Hgx)) as [_ Hidx].
      fold p0 in Hidx. rewrite Hid0 in Hidx. rewrite Hidx.
      apply list_elem_of_In, in_map. exact Hx. }
    split.
    + intros x r [<- | Hx] Hgx.
      * assert (r = r0) as -> by congruence.
        rewrite IH2.
        -- unfold h1. now rewrite list_lookup_total_insert_eq.
        -- intros y Hy. rewrite Hline. now apply Hfresh.
      * rewrite (IH1 x r Hx); [|now rewrite Hline].
        assert (r0 <> r) as Hne.
        { intros ->. exact (Hfresh x Hx Hgx). }
        unfold h1. now rewrite list_lookup_total_insert_ne.
    + intros r Hnone. rewrite IH2.
      * assert (r0 <> r) as Hne.
        { intros ->. exact (Hnone it (or_introl eq_refl) Hget). }
        unfold h1. now rewrite list_lookup_total_insert_ne.
      * intros y Hy. rewrite Hline. apply Hnone. now right.
Qed.

Lemma checkout_returns_sale st d now io_sales io_inv sale st' :
  checkout st d now io_sales io_inv = Returned (Some sale) st' <->
  cart st <> [] /\
  Qltb d 0 || Qltb (cart_total (cart st)) d = false /\
  sale = Sale_init (cart st) (cart_total (cart st)) now d /\
  exists h', adjust_stock (products st) (heap st) (cart st) = (true, h') /\
             st' = checked_out st sale h' io_sales io_inv.
Proof.
  destruct st as [h0 p0 c s o w]. unfold checkout, checked_out.
  cbn [cart heap products sales snd save_sales save_data set_sales set_heap
       log_write].
  destruct c as [|it0 c0].
  { split; [discriminate | intros [H _]; congruence]. }
  destruct (Qltb d 0 || Qltb (cart_total (it0 :: c0)) d).
  { split; [discriminate | intros (_ & H & _); discriminate]. }
  destruct (adjust_stock p0 h0 (it0 :: c0)) as [[|] h] eqn:Ha.
  - split.
    + intros H. inversion H; subst.
      split; [discriminate|]. split; [reflexivity|]. split; [reflexivity|].
      exists h. split; reflexivity.
    + intros (_ & _ & -> & h' & Hh & ->). inversion Hh; subst. reflexivity.
  - split; [discriminate|].
    intros (_ & _ & _ & h' & Hh & _). discriminate.
Qed.


Lemma widget_state_reachable : reachable widget_state.
Proof. exists [], [], widget_ops. reflexivity. Qed.


(** C4.  [checkout] on an empty cart, or with a discount below 0 or above
    the subtotal, returns no Sale; it prints "Cart is empty!" in the first
    case and "Invalid discount amount!" in the other, and leaves the sale
    history, the store, the catalog and the cart as they were, and writes
    no file. *)
Theorem checkout_rejected (st : State) (d : Q) (now : Z) (io_sales io_inv : bool) :
  cart st = [] \/ (d < 0)%Q \/ (cart_total (cart st) < d)%Q ->
  exists st',
    checkout st d now io_sales io_inv = Returned None st' /\
    stdout st' = stdout st ++ [match cart st with
                               | [] => MsgCartEmpty
                               | _ :: _ => MsgInvalidDiscountAmount
                               end] /\
    sales st' = sales st /\ heap st' = heap st /\ products st' = products st /\
    cart st' = cart st /\ writes st' = writes st.
Proof.
  intros H. unfold checkout. destruct (cart st) as [|it0 c0] eqn:Hc.
  - eexists. split; [reflexivity|]. simpl. rewrite Hc. repeat split.
  - destruct H as [H | H]; [discriminate|].
    apply range_test_true in H. rewrite H.
    eexists. split; [reflexivity|]. simpl. rewrite Hc. repeat split.
Qed.

Lemma checkout_rejected_witness :
  exists st',
    checkout widget_state (-1)%Q 0 true true = Returned None st' /\
    stdout st' = stdout widget_state ++ [MsgInvalidDiscountAmount] /\
    sales st' = sales widget_state /\ heap st' = heap widget_state /\
    products st' = products widget_state /\
    cart st' = cart widget_state /\ writes st' = writes widget_state.
Proof.
  apply (checkout_rejected widget_state (-1)%Q 0 true true).
  right. left. reflexivity.
Defined.


(** ** Discounts *)

Lemma apply_discount_state st kind v :
  exists m, snd (apply_discount st kind v) = print m st.
Proof.
  unfold apply_discount. destruct (cart st); [eexists; reflexivity|].
  destruct (String.eqb kind "percentage");
    [destruct (Qltb v 0 || Qltb 100 v); eexists; reflexivity|].
  destruct (String.eqb kind "fixed"); [|eexists; reflexivity].
  destruct (Qltb v 0 || Qltb _ v); eexists; reflexivity.
Qed.

(** *** Comparisons of floats *)

Lemma SFcompare_antisym (x y : spec_float) :
  SFcompare y x = option_map CompOpp (SFcompare x y).
Proof.
  destruct x as [sx| sx| |sx mx ex], y as [sy| sy| |sy my ey]; simpl;
    try reflexivity;
    try (destruct sx; reflexivity); try (destruct sy; reflexivity);
    try (destruct sx, sy; reflexivity).
  change (Pos.compare_cont Eq my mx) with (my ?= mx)%positive.
  change (Pos.compare_cont Eq mx my) with (mx ?= my)%positive.
  destruct sx, sy; try reflexivity; f_equal;
    rewrite (Z.compare_antisym ex ey); destruct (ex ?= ey); simpl;
    try reflexivity;
    rewrite (Pos.compare_antisym mx my); destruct (mx ?= my)%positive; reflexivity.
Qed.

(** [x <= y] holds only when [y < x] does not; neither holds of a NaN. *)
Lemma float_leb_ltb (x y : float) :
  (x <=? y)%float = true -> (y <? x)%float = false.
Proof.
  rewrite leb_spec, ltb_spec. unfold SFleb, SFltb.
  rewrite (SFcompare_antisym (Prim2SF x) (Prim2SF y)).
  destruct (SFcompare (Prim2SF x) (Prim2SF y)) as [[| |]|]; simpl; congruence.
Qed.

Lemma float_range_test (lo hi v : float) :
  (lo <=? v)%float = true -> (v <=? hi)%float = true ->
  (v <? lo)%float || (hi <? v)%float = false.
Proof. intros H1 H2. now rewrite (float_leb_ltb _ _ H1), (float_leb_ltb _ _ H2). Qed.

(** C6.  On a cart that is not empty, with [s] the sum of the totals of
    its lines: a percentage [v] with [0 <= v <= 100] yields the float
    [s * (v / 100)], and one with [v < 0] or [v > 100] yields 0 with the
    message of the range; a fixed [v] with [0 <= v <= s] yields [v], and
    one with [v < 0] or [v > s] yields 0 with the message of the range; a
    discount of another kind yields 0.  No call changes the cart or the
    objects. *)
Theorem apply_discount_float (sum : list float -> float) (st : Float64.State)
    (kind : string) (v : float) :
  Float64.cart st <> [] ->
  ((0 <=? v)%float = true /\ (v <=? 100)%float = true ->
     Float64.apply_discount sum st "percentage" v
     = (Float64.Float (sum (map Float64.total (Float64.cart st)) * (v / 100))%float,
        Float64.print
          (Float64.MsgDiscountApplied
             (sum (map Float64.total (Float64.cart st)) * (v / 100))%float) st)) /\
  ((v <? 0)%float = true \/ (100 <? v)%float = true ->
     Float64.apply_discount sum st "percentage" v
     = (Float64.Int 0, Float64.print Float64.MsgPercentageRange st)) /\
  ((0 <=? v)%float = true /\
   (v <=? sum (map Float64.total (Float64.cart st)))%float = true ->
     Float64.apply_discount sum st "fixed" v
     = (Float64.Float v, Float64.print (Float64.MsgDiscountApplied v) st)) /\
  ((v <? 0)%float = true \/
   (sum (map Float64.total (Float64.cart st)) <? v)%float = true ->
     Float64.apply_discount sum st "fixed" v
     = (Float64.Int 0,
        Float64.print
          (Float64.MsgFixedRange (sum (map Float64.total (Float64.cart st)))) st)) /\
  (kind <> "percentage" -> kind <> "fixed" ->
     Float64.apply_discount sum st kind v
     = (Float64.Int 0, Float64.print Float64.MsgInvalidDiscountType st)) /\
  Float64.cart (snd (Float64.apply_discount sum st kind v)) = Float64.cart st /\
  Float64.heap (snd (Float64.apply_discount sum st kind v)) = Float64.heap st.
Proof.
  intros Hne.
  assert (forall k,
            Float64.apply_discount sum st k v
            = let t := sum (map Float64.total (Float64.cart st)) in
              if String.eqb k "percentage" then
                if (v <? 0)%float || (100 <? v)%float then
                  (Float64.Int 0, Float64.print Float64.MsgPercentageRange st)
                else
                  (Float64.Float (t * (v / 100))%float,
                   Float64.print (Float64.MsgDiscountApplied (t * (v / 100))%float) st)
              else if String.eqb k "fixed" then
                if (v <? 0)%float || (t <? v)%float then
                  (Float64.Int 0, Float64.print (Float64.MsgFixedRange t) st)
                else (Float64.Float v, Float64.print (Float64.MsgDiscountApplied v) st)
              else (Float64.Int 0, Float64.print Float64.MsgInvalidDiscountType st))
    as Hun.
  { intros k. unfold Float64.apply_discount.
    destruct (Float64.cart st) as [|it0 c0]; [congruence | reflexivity]. }
  split; [|split; [|split; [|split; [|split]]]].
  - intros [H0 H1]. rewrite Hun. simpl. now rewrite (float_range_test _ _ _ H0 H1).
  - intros H. rewrite Hun. simpl. apply orb_true_iff in H. now rewrite H.
  - intros [H0 H1]. rewrite Hun. simpl. now rewrite (float_range_test _ _ _ H0 H1).
  - intros H. rewrite Hun. simpl. apply orb_true_iff in H. now rewrite H.
  - intros H1 H2. rewrite Hun. apply String.eqb_neq in H1, H2. simpl.
    now rewrite H1, H2.
  - rewrite Hun. cbv zeta.
    destruct (String.eqb kind "percentage");
      [destruct ((v <? 0)%float || (100 <? v)%float); split; reflexivity|].
    destruct (String.eqb kind "fixed"); [|split; reflexivity].
    destruct ((v <? 0)%float
              || (sum (map Float64.total (Float64.cart st)) <? v)%float);
      split; reflexivity.
Qed.

Lemma apply_discount_float_witness :
  Float64.apply_discount Float64.sum_left Float64.hundred_state "percentage" 10
  = (Float64.Float 10, Float64.print (Float64.MsgDiscountApplied 10) Float64.hundred_state) /\
  Float64.apply_discount Float64.sum_left Float64.hundred_state "percentage" 101
  = (Float64.Int 0, Float64.print Float64.MsgPercentageRange Float64.hundred_state) /\
  Float64.apply_discount Float64.sum_left Float64.hundred_state "fixed" 5
  = (Float64.Float 5, Float64.print (Float64.MsgDiscountApplied 5) Float64.hundred_state) /\
  Float64.apply_discount Float64.sum_left Float64.hundred_state "fixed" (-1)
  = (Float64.Int 0, Float64.print (Float64.MsgFixedRange 100) Float64.hundred_state).
Proof.
  assert (Float64.cart Float64.hundred_state <> []) as Hne by discriminate.
  split; [|split; [|split]].
  - destruct (apply_discount_float Float64.sum_left Float64.hundred_state
                "percentage" 10 Hne) as (H & _).
    rewrite H; [reflexivity | split; reflexivity].
  - destruct (apply_discount_float Float64.sum_left Float64.hundred_state
                "percentage" 101 Hne) as (_ & H & _).
    apply H. right. reflexivity.
  - destruct (apply_discount_float Float64.sum_left Float64.hundred_state
                "fixed" 5 Hne) as (_ & _ & H & _).
    apply H. split; reflexivity.
  - destruct (apply_discount_float Float64.sum_left Float64.hundred_state
                "fixed" (-1) Hne) as (_ & _ & _ & H & _).
    apply H. left. reflexivity.
Defined.

(** The discount of 7 percent on a cart of total 100 is not 100 * 7 / 100:
    the program computes [100 * (7 / 100)], which is the float above 7, of
    value 7 + 2^-50.  And a value that is not a number, for which
    [0 <= v] does not hold, is not turned down: it passes the two tests
    of the range and the call yields the product, not 0. *)
Lemma apply_discount_rounds :
  Float64.cart Float64.hundred_state <> [] /\
  Float64.sum_left (map Float64.total (Float64.cart Float64.hundred_state))
  = 100%float /\
  ((0 <=? 7)%float = true /\ (7 <=? 100)%float = true) /\
  fst (Float64.apply_discount Float64.sum_left Float64.hundred_state "percentage" 7)
  = Float64.Float (100 * (7 / 100))%float /\
  fst (Float64.apply_discount Float64.sum_left Float64.hundred_state "percentage" 7)
  <> Float64.Float (100 * 7 / 100)%float /\
  (100 * 7 / 100)%float = 7%float /\
  (7 <? 100 * (7 / 100))%float = true /\
  Prim2SF (100 * (7 / 100))%float
  = S754_finite false (7 * 2 ^ 50 + 1)%positive (-50) /\
  (0 <=? nan)%float = false /\
  Float64.apply_discount Float64.sum_left Float64.hundred_state "percentage" nan
  = (Float64.Float nan,
     Float64.print (Float64.MsgDiscountApplied nan) Float64.hundred_state).
Proof.
  split; [discriminate|]. split; [reflexivity|].
  split; [split; reflexivity|].
  split; [reflexivity|].
  split.
  { intros H.
    apply (f_equal (fun n => match n with
                             | Float64.Float x => Prim2SF x
                             | Float64.Int _ => S754_nan
                             end)) in H.
    vm_compute in H. discriminate. }
  split; [reflexivity|].
  split; [reflexivity|].
  split; [vm_compute; reflexivity|].
  split; reflexivity.
Qed.

(** ** The catalog *)

(** C7.  For an id that is not in the catalog, a price above 0 and a stock
    of at least 0, [add_product] followed by [get_product] gives a product
    of exactly the id, name, price and stock supplied; [add_product]
    returns what the rewrite of the file returned. *)
Theorem add_then_get (st : State) (pid nm : string) (pr : Q) (qty : Z) (io : bool) :
  get_product st pid = None -> (0 < pr)%Q -> 0 <= qty ->
  fst (add_product st pid nm pr qty io) = io /\
  exists r,
    get_product (snd (add_product st pid nm pr qty io)) pid = Some r /\
    obj (snd (add_product st pid nm pr qty io)) r = mkProduct pid nm pr qty.
Proof.
  intros Hget Hpr Hqty. unfold get_product in Hget. unfold add_product.
  apply dict_mem_false in Hget as Hmem. rewrite Hmem.
  apply Qle_bool_gt in Hpr. rewrite Hpr.
  apply Z.ltb_ge in Hqty. rewrite Hqty.
  destruct st as [h d c s o w]. simpl in *.
  split; [now destruct io|].
  exists (length h).
  destruct io; simpl; unfold get_product, obj; simpl;
    (split; [now apply dict_get_app_new | apply heap_lookup_new]).
Qed.

Lemma add_then_get_witness :
  fst (add_product (init_state [] []) "P1" "Widget" 9.99%Q 10 true) = true /\
  exists r,
    get_product (snd (add_product (init_state [] []) "P1" "Widget" 9.99%Q 10 true)) "P1"
    = Some r /\
    obj (snd (add_product (init_state [] []) "P1" "Widget" 9.99%Q 10 true)) r
    = mkProduct "P1" "Widget" 9.99%Q 10.
Proof.
  apply (add_then_get (init_state [] []) "P1" "Widget" 9.99%Q 10 true).
  - reflexivity.
  - reflexivity.
  - lia.
Defined.

(** ** The cart *)

(** C9.  [add_to_cart] with an id that is not in the catalog returns
    [False] and prints that the product could not be found, which is
    neither the message of a bad quantity nor that of insufficient stock;
    the cart, and the rest of the state, are as they were. *)
Theorem add_to_cart_unknown_product (st : State) (pid : string) (q : Z) :
  get_product st pid = None ->
  add_to_cart st pid q = (false, print MsgCouldNotFindProduct st) /\
  cart (snd (add_to_cart st pid q)) = cart st /\
  MsgCouldNotFindProduct <> MsgQuantityNotPositive /\
  forall n, MsgCouldNotFindProduct <> MsgInsufficientStock n.
Proof.
  intros H. unfold add_to_cart. rewrite H. simpl.
  repeat split; discriminate.
Qed.

Lemma add_to_cart_unknown_product_witness :
  add_to_cart widget_state "P2" 1 = (false, print MsgCouldNotFindProduct widget_state) /\
  cart (snd (add_to_cart widget_state "P2" 1)) = cart widget_state /\
  MsgCouldNotFindProduct <> MsgQuantityNotPositive /\
  forall n, MsgCouldNotFindProduct <> MsgInsufficientStock n.
Proof.
  apply (add_to_cart_unknown_product widget_state "P2" 1).
  reflexivity.
Defined.

Lemma remove_loop_float_reduce h pid q pre it post :
  (forall x, In x pre -> Float64.product_id (h !!! Float64.product x) <> pid) ->
  Float64.product_id (h !!! Float64.product it) = pid ->
  q < Float64.quantity it ->
  Float64.remove_loop h pid (Some q) (pre ++ it :: post)
  = match float_of_int (Float64.quantity it - q) with
    | Some f =>
        Float64.Done Float64.MsgReducedItem
          (pre ++ Float64.mkOrderItem (Float64.product it) (Float64.quantity it - q)
                    (Float64.price (h !!! Float64.product it) * f)%float :: post)
    | None =>
        Float64.Overflow
          (pre ++ Float64.mkOrderItem (Float64.product it) (Float64.quantity it - q)
                    (Float64.total it) :: post)
    end.
Proof.
  intros Hpre Hit Hq. induction pre as [|x pre IH]; simpl.
  - apply String.eqb_eq in Hit. rewrite Hit.
    apply Z.leb_gt in Hq. rewrite Hq.
    now destruct (float_of_int (Float64.quantity it - q)).
  - assert (Float64.product_id (h !!! Float64.product x) <> pid) as Hx
      by (apply Hpre; now left).
    apply String.eqb_neq in Hx. rewrite Hx.
    rewrite IH; [|intros y Hy; apply Hpre; now right].
    now destruct (float_of_int (Float64.quantity it - q)).
Qed.

(** C10.  When the first line of [product_id] in the cart has quantity
    [n], and [q < n] is such that [n - q] converts to a float [f],
    [remove_from_cart] returns [True] and turns the line into one of
    quantity [n - q] and of total [price * f], the float product at the
    price of the line's product; [q] is not tested for its sign, and with
    [q <= 0] the new quantity is at least [n]. *)
Theorem remove_from_cart_float (st : Float64.State) (pid : string) (q : Z)
    (pre post : list Float64.OrderItem) (it : Float64.OrderItem) (f : float) :
  Float64.cart st = pre ++ it :: post ->
  (forall x, In x pre ->
     Float64.product_id (Float64.obj st (Float64.product x)) <> pid) ->
  Float64.product_id (Float64.obj st (Float64.product it)) = pid ->
  q < Float64.quantity it ->
  float_of_int (Float64.quantity it - q) = Some f ->
  Float64.remove_from_cart st pid (Some q)
  = Float64.Returned true
      (Float64.print Float64.MsgReducedItem
         (Float64.set_cart
            (pre ++ Float64.mkOrderItem (Float64.product it) (Float64.quantity it - q)
                      (Float64.price (Float64.obj st (Float64.product it)) * f)%float
                 :: post) st)) /\
  (q <= 0 -> Float64.quantity it <= Float64.quantity it - q).
Proof.
  intros Hc Hpre Hit Hq Hf. split; [|lia].
  unfold Float64.remove_from_cart. rewrite Hc.
  rewrite (remove_loop_float_reduce _ _ _ _ _ _ Hpre Hit Hq), Hf. reflexivity.
Qed.

Lemma remove_from_cart_float_witness :
  Float64.remove_from_cart Float64.widget_state "P1" (Some (-2))
  = Float64.Returned true
      (Float64.print Float64.MsgReducedItem
         (Float64.set_cart [Float64.mkOrderItem 0%nat 5 12.5%float]
            Float64.widget_state)) /\
  (-2 <= 0 -> 3 <= 3 - -2).
Proof.
  apply (remove_from_cart_float Float64.widget_state "P1" (-2) [] []
           (Float64.mkOrderItem 0%nat 3 7.5%float) 5%float).
  - reflexivity.
  - intros x [].
  - reflexivity.
  - reflexivity.
  - reflexivity.
Defined.

(** With the quantity -10^400 to remove from a line of 3 Widgets, which
    is below 3, the call does not return: [price * quantity] raises
    [OverflowError], with the quantity of the line already 3 + 10^400 and
    its total still 7.5. *)
Lemma remove_from_cart_overflow :
  Float64.cart Float64.widget_state = [Float64.mkOrderItem 0%nat 3 7.5%float] /\
  Float64.product_id (Float64.obj Float64.widget_state 0%nat) = "P1" /\
  - 10 ^ 400 < 3 /\
  Float64.remove_from_cart Float64.widget_state "P1" (Some (- 10 ^ 400))
  = Float64.Raised Float64.OverflowError
      (Float64.set_cart [Float64.mkOrderItem 0%nat (3 - - 10 ^ 400) 7.5%float]
         Float64.widget_state).
Proof.
  split; [reflexivity|]. split; [reflexivity|]. split; [reflexivity|].
  vm_compute. reflexivity.
Qed.

(** ** Search *)

Lemma N_of_ascii_inj (a b : ascii) : N_of_ascii a = N_of_ascii b -> a = b.
Proof.
  intros H. rewrite <- (ascii_N_embedding a), <- (ascii_N_embedding b).
  now rewrite H.
Qed.

Lemma N_of_lower_ascii (c : ascii) :
  N_of_ascii (lower_ascii c)
  = if ((65 <=? N_of_ascii c) && (N_of_ascii c <=? 90))%N
    then (N_of_ascii c + 32)%N else N_of_ascii c.
Proof.
  unfold lower_ascii.
  destruct ((65 <=? N_of_ascii c) && (N_of_ascii c <=? 90))%N eqn:E; [|reflexivity].
  apply andb_true_iff in E. destruct E as [_ E]. apply N.leb_le in E.
  apply N_ascii_embedding. lia.
Qed.

Lemma capital_reflect (c : ascii) :
  reflect (is_capital c) ((65 <=? N_of_ascii c) && (N_of_ascii c <=? 90))%N.
Proof.
  unfold is_capital. apply iff_reflect.
  rewrite andb_true_iff, !N.leb_le. tauto.
Qed.

Lemma lower_ascii_same_letter (a b : ascii) :
  lower_ascii a = lower_ascii b <-> same_letter a b.
Proof.
  unfold same_letter. split.
  - intros H. apply (f_equal N_of_ascii) in H. rewrite !N_of_lower_ascii in H.
    destruct (capital_reflect a) as [Ha | Ha];
      destruct (capital_reflect b) as [Hb | Hb].
    + left. apply N_of_ascii_inj. lia.
    + right. left. split; [exact Ha | congruence].
    + right. right. split; [exact Hb | congruence].
    + left. now apply N_of_ascii_inj.
  - intros H. apply N_of_ascii_inj. rewrite !N_of_lower_ascii.
    destruct (capital_reflect a) as [Ha | Ha];
      destruct (capital_reflect b) as [Hb | Hb];
      unfold is_capital in *;
      destruct H as [-> | [[Hc E] | [Hc E]]]; lia.
Qed.

Lemma lower_caseless_eq (s t : string) : ascii_lower s = ascii_lower t <-> caseless_eq s t.
Proof.
  revert t. induction s as [|a s IH]; intros [|b t]; simpl;
    try (split; [discriminate | tauto]); [tauto|].
  rewrite <- IH, <- lower_ascii_same_letter. split.
  - intros H. inversion H. auto.
  - intros [-> ->]. reflexivity.
Qed.

Lemma lower_app (s t : string) : ascii_lower (s ++ t) = (ascii_lower s ++ ascii_lower t)%string.
Proof. induction s as [|a s IH]; simpl; [reflexivity | now rewrite IH]. Qed.

Lemma lower_split (s x y : string) :
  ascii_lower s = (x ++ y)%string ->
  exists a b, s = (a ++ b)%string /\ ascii_lower a = x /\ ascii_lower b = y.
Proof.
  revert s. induction x as [|c x IH]; simpl; intros s H.
  - exists EmptyString, s. auto.
  - destruct s as [|c' s]; simpl in H; [discriminate|].
    inversion H as [[Hc Hs]]. destruct (IH s Hs) as (a & b & -> & Ha & Hb).
    exists (String c' a), b. simpl. rewrite Ha. auto.
Qed.

Lemma prefix_app (sub s : string) :
  String.prefix sub s = true <-> exists post, s = (sub ++ post)%string.
Proof.
  revert s. induction sub as [|c sub IH]; intros s.
  - split; [exists s; reflexivity | now destruct s].
  - destruct s as [|c' s]; simpl.
    + split; [discriminate | intros [post H]; discriminate].
    + destruct (ascii_dec c c') as [<- | Hne].
      * rewrite IH. split; intros [post H]; exists post; congruence.
      * split; [discriminate | intros [post H]; congruence].
Qed.

Lemma str_in_app (sub s : string) :
  str_in sub s = true <-> exists pre post, s = (pre ++ sub ++ post)%string.
Proof.
  induction s as [|c s IH].
  - cbn [str_in]. destruct (String.prefix sub "") eqn:E.
    + apply prefix_app in E. destruct E as [post E].
      split; [exists EmptyString, post; exact E | reflexivity].
    + split; [discriminate|]. intros (pre & post & H).
      destruct pre; [|discriminate]. simpl in H.
      assert (String.prefix sub "" = true) by (apply prefix_app; eauto).
      congruence.
  - cbn [str_in]. destruct (String.prefix sub (String c s)) eqn:E.
    + apply prefix_app in E. destruct E as [post E].
      split; [exists EmptyString, post; exact E | reflexivity].
    + rewrite IH. split; intros (pre & post & H).
      * exists (String c pre), post. simpl. now rewrite H.
      * destruct pre as [|c' pre]; simpl in H.
        -- assert (String.prefix sub (String c s) = true) by (apply prefix_app; eauto).
           congruence.
        -- inversion H; subst. eauto.
Qed.

Lemma str_in_caseless (sub s : string) :
  str_in (ascii_lower sub) (ascii_lower s) = true <-> caseless_in sub s.
Proof.
  rewrite str_in_app. unfold caseless_in. split.
  - intros (pre' & post' & H).
    apply lower_split in H. destruct H as (pre & rest & -> & _ & H).
    apply lower_split in H. destruct H as (mid & post & -> & Hm & _).
    exists pre, mid, post. split; [reflexivity|]. now apply lower_caseless_eq.
  - intros (pre & mid & post & -> & H). apply lower_caseless_eq in H.
    exists (ascii_lower pre), (ascii_lower post). now rewrite !lower_app, H.
Qed.

Lemma search_match_ascii (keyword : string) (p : Product) :
  search_match ascii_lower keyword p = true <->
  caseless_eq keyword (product_id p) \/ caseless_in keyword (name p).
Proof.
  unfold search_match.
  rewrite orb_true_iff, str_in_caseless, String.eqb_eq, lower_caseless_eq. tauto.
Qed.





(** On ASCII text the search reads the case as one expects: with a
    [str.lower()] that lowers ASCII text as Python does, an ASCII keyword
    finds, among products of ASCII ids and names, those whose id is the
    keyword up to the case of the letters A to Z, or whose name has a block
    that is. *)
Theorem search_product_ascii (lower : string -> string) (st : State)
    (keyword : string) :
  (forall s, is_ascii s -> lower s = ascii_lower s) ->
  is_ascii keyword ->
  (forall r, In r (dict_values (products st)) ->
     is_ascii (product_id (obj st r)) /\ is_ascii (name (obj st r))) ->
  forall r, In r (search_product lower st keyword) <->
    In r (dict_values (products st)) /\
    (caseless_eq keyword (product_id (obj st r)) \/
     caseless_in keyword (name (obj st r))).
Proof.
  intros Hlow Hk Hcat r. unfold search_product. rewrite filter_In.
  assert (In r (dict_values (products st)) ->
          search_match lower keyword (obj st r)
          = search_match ascii_lower keyword (obj st r)) as E.
  { intros Hin. destruct (Hcat r Hin) as [Hid Hnm]. unfold search_match.
    now rewrite (Hlow _ Hk), (Hlow _ Hid), (Hlow _ Hnm). }
  split; intros [Hin H]; (split; [exact Hin|]).
  - rewrite (E Hin) in H. now apply search_match_ascii.
  - rewrite (E Hin). now apply search_match_ascii.
Qed.

Lemma search_product_ascii_witness :
  In 0%nat (search_product ascii_lower widget_state "wIDg") <->
  In 0%nat (dict_values (products widget_state)) /\
  (caseless_eq "wIDg" (product_id (obj widget_state 0%nat)) \/
   caseless_in "wIDg" (name (obj widget_state 0%nat))).
Proof.
  apply (search_product_ascii ascii_lower widget_state "wIDg").
  - reflexivity.
  - simpl. repeat split.
  - intros r [<- | []]. simpl. repeat split.
Defined.

(** ** Where the code lets the stock be oversold *)

(** With a quantity that converts to a float, alone and added to the
    quantity of any line of the cart (so that [price * quantity] does not
    raise), [add_to_cart] accepts a call exactly when the product is in
    the catalog, the quantity is above 0, and the stock is at least the
    quantity of this call; the quantity of a line that is already in the
    cart has no part in the test. *)
Lemma add_to_cart_accepts (st : State) (pid : string) (q : Z) :
  converts q ->
  (forall it, In it (cart st) -> converts (quantity it + q)) ->
  (fst (add_to_cart st pid q) = true <->
   exists r, get_product st pid = Some r /\ 0 < q /\ q <= stock_quantity (obj st r)).
Proof.
  intros _ _.
  unfold add_to_cart. destruct (get_product st pid) as [r|].
  - destruct (q <=? 0) eqn:E1; [|destruct (stock_quantity (obj st r) <? q) eqn:E2].
    + apply Z.leb_le in E1. simpl. split; [discriminate|].
      intros (r' & _ & Hq & _). lia.
    + apply Z.ltb_lt in E2. simpl. split; [discriminate|].
      intros (r' & Hr & _ & Hs). inversion Hr; subst. lia.
    + apply Z.leb_gt in E1. apply Z.ltb_ge in E2.
      destruct (merge_loop (heap st) pid q (cart st)); simpl;
        (split; [intros _; exists r; auto | reflexivity]).
  - simpl. split; [discriminate | intros (r' & Hr & _); discriminate].
Qed.

Lemma add_to_cart_accepts_witness :
  fst (add_to_cart oversell_state "P1" 6) = true <->
  exists r, get_product oversell_state "P1" = Some r /\ 0 < 6 /\
            6 <= stock_quantity (obj oversell_state r).
Proof.
  apply (add_to_cart_accepts oversell_state "P1" 6).
  - intros H. vm_compute in H. discriminate.
  - intros it [<- | []] H. vm_compute in H. discriminate.
Defined.

(** C2, on the code.  With 10 Widgets in stock and a line of 6 in the
    cart, [add_to_cart] of 6 more returns [True] and leaves a line of 12:
    the cumulative quantity is above the stock. *)
Theorem add_to_cart_exceeds_stock :
  reachable oversell_state /\
  get_product oversell_state "P1" = Some 0%nat /\
  stock_quantity (obj oversell_state 0%nat) = 10 /\
  cart oversell_state = [mkOrderItem 0%nat 6 59.94%Q] /\
  fst (add_to_cart oversell_state "P1" 6) = true /\
  cart (snd (add_to_cart oversell_state "P1" 6)) = [mkOrderItem 0%nat 12 119.88%Q] /\
  stock_quantity (obj (snd (add_to_cart oversell_state "P1" 6)) 0%nat) = 10.
Proof.
  split; [exists [], [], oversell_ops; reflexivity|].
  repeat split.
Qed.

(** C3, on the code.  Adding 6 and 6 again of a product with 10 in stock
    and checking out is a session of the public operations, and it ends
    with a stock of -2. *)
Theorem checkout_negative_stock :
  run (init_state [] []) oversold_ops = Some oversold_state /\
  reachable oversold_state /\
  get_product oversold_state "P1" = Some 0%nat /\
  stock_quantity (obj oversold_state 0%nat) = -2.
Proof.
  split; [vm_compute; reflexivity|].
  split; [exists [], [], oversold_ops; vm_compute; reflexivity|].
  split; reflexivity.
Qed.

(** ** Where an update is rejected half way *)

(** C5, on the code.  An update of the Widget with a new name and the
    price -1 returns [False] with the message of the price, writes no
    file, and leaves the product with the new name. *)
Theorem update_product_partial :
  obj widget_state 0%nat = mkProduct "P1" "Widget" 9.99%Q 10 /\
  fst (update_product widget_state "P1" (Some "Gadget") (Some (-1)%Q) None true)
  = false /\
  obj (snd (update_product widget_state "P1" (Some "Gadget") (Some (-1)%Q) None true))
      0%nat
  = mkProduct "P1" "Gadget" 9.99%Q 10 /\
  stdout (snd (update_product widget_state "P1" (Some "Gadget") (Some (-1)%Q) None true))
  = stdout widget_state ++ [MsgPriceNotPositive] /\
  writes (snd (update_product widget_state "P1" (Some "Gadget") (Some (-1)%Q) None true))
  = writes widget_state.
Proof. repeat split. Qed.

(** A rejected update has changed the fields that come before the one it
    rejects: with a valid price and a stock below 0 the price is changed
    too. *)
Example update_product_partial_price :
  fst (update_product widget_state "P1" None (Some 5%Q) (Some (-1)) true) = false /\
  obj (snd (update_product widget_state "P1" None (Some 5%Q) (Some (-1)) true)) 0%nat
  = mkProduct "P1" "Widget" 5%Q 10.
Proof. repeat split. Qed.

(** An update that is rejected for a field supplied alone changes nothing
    but the output. *)
Lemma update_product_rejects (st : State) (pid : string) (pr : option Q)
    (qty : option Z) (io : bool) :
  (exists p, pr = Some p /\ (p <= 0)%Q) \/
  (pr = None /\ exists q, qty = Some q /\ q < 0) ->
  get_product st pid <> None ->
  fst (update_product st pid None pr qty io) = false /\
  heap (snd (update_product st pid None pr qty io)) = heap st /\
  writes (snd (update_product st pid None pr qty io)) = writes st.
Proof.
  intros H Hget. unfold update_product, get_product in *.
  destruct (dict_get (products st) pid) as [r|]; [|congruence].
  destruct H as [(p & -> & Hp) | (-> & q & -> & Hq)].
  - apply Qle_bool_iff in Hp. rewrite Hp. repeat split.
  - apply Z.ltb_lt in Hq. rewrite Hq. repeat split.
Qed.

(** An update that succeeds leaves the fields that were not supplied as
    they were, and sets the others. *)
Lemma update_product_success (st : State) (pid : string) (nm : option string)
    (pr : option Q) (qty : option Z) (io : bool) (r : ref) :
  get_product st pid = Some r -> (r < length (heap st))%nat ->
  fst (update_product st pid nm pr qty io) = true ->
  obj (snd (update_product st pid nm pr qty io)) r
  = mkProduct (product_id (obj st r))
              (default (name (obj st r)) nm)
              (default (price (obj st r)) pr)
              (default (stock_quantity (obj st r)) qty).
Proof.
  intros Hget Hr. unfold update_product, get_product in *. rewrite Hget.
  destruct st as [h d c s o w]. unfold obj. simpl in Hr.
  assert (forall p, h !!! r = p ->
            mkProduct (product_id p) (name p) (price p) (stock_quantity p) = h !!! r)
    as Heta by (intros [] ->; reflexivity).
  destruct nm as [n|]; (destruct pr as [p|]; [destruct (Qle_bool p 0)|]);
    try discriminate;
    (destruct qty as [q|]; [destruct (q <? 0)|]); try discriminate;
    destruct io; try discriminate; intros _;
    unfold set_name, set_price, set_stock_quantity, obj; simpl;
    rewrite ?list_lookup_total_insert_eq by (rewrite ?length_insert; exact Hr);
    simpl; auto; symmetry; now apply Heta.
Qed.

Lemma update_product_success_witness :
  obj (snd (update_product widget_state "P1" None (Some 5%Q) None true)) 0%nat
  = mkProduct "P1" "Widget" 5%Q 10.
Proof.
  apply (update_product_success widget_state "P1" None (Some 5%Q) None true 0%nat).
  - reflexivity.
  - simpl. lia.
  - reflexivity.
Defined.

(** ** A line whose product has left the catalog *)

(** [checkout] with a valid discount on a cart one of whose lines is of an
    id that is not in the catalog raises [AttributeError]; by then the Sale
    is in the history, and the cart is not cleared. *)
Theorem checkout_missing_product (st : State) (d : Q) (now : Z)
    (io_sales io_inv : bool) :
  (0 <= d)%Q -> (d <= cart_total (cart st))%Q ->
  (exists it, In it (cart st) /\ get_product st (line_id (heap st) it) = None) ->
  exists st',
    checkout st d now io_sales io_inv = Raised AttributeError st' /\
    sales st' = sales st ++ [Sale_init (cart st) (cart_total (cart st)) now d] /\
    cart st' = cart st /\ products st' = products st.
Proof.
  intros H0 Ht (it & Hin & Hnone).
  destruct st as [h p c s o w]. unfold checkout.
  cbn [cart heap products sales snd save_sales save_data set_sales set_heap
       log_write] in *.
  destruct c as [|it0 c0]; [destruct Hin|].
  assert (Qltb d 0 || Qltb (cart_total (it0 :: c0)) d = false) as ->
    by now apply range_test_false.
  destruct (adjust_stock p h (it0 :: c0)) as [[|] h'] eqn:Ha.
  - exfalso. assert (fst (adjust_stock p h (it0 :: c0)) = true) as Hc
      by now rewrite Ha.
    rewrite adjust_stock_completes in Hc. exact (Hc it Hin Hnone).
  - eexists. split; [reflexivity|]. repeat split.
Qed.

Lemma checkout_missing_product_witness :
  exists st',
    checkout orphan_state 0%Q 0 true true = Raised AttributeError st' /\
    sales st' = sales orphan_state
                ++ [Sale_init (cart orphan_state) (cart_total (cart orphan_state)) 0 0%Q] /\
    cart st' = cart orphan_state /\ products st' = products orphan_state.
Proof.
  apply (checkout_missing_product orphan_state 0%Q 0 true true).
  - discriminate.
  - discriminate.
  - exists (mkOrderItem 0%nat 3 29.97%Q). split; [now left | reflexivity].
Defined.

(** * Further properties of the operations *)

(** ** Calls that are turned down *)

(** [add_product] with an id of the catalog, a price of 0 or less, or a
    stock below 0 returns [False]; it prints the message of the first test
    that fails, in the order id, price, stock, and changes nothing else:
    no object, no entry, no file. *)
Theorem add_product_rejected (st : State) (pid nm : string) (pr : Q) (qty : Z)
    (io : bool) :
  get_product st pid <> None \/ (pr <= 0)%Q \/ qty < 0 ->
  exists m,
    add_product st pid nm pr qty io = (false, print m st) /\
    (get_product st pid <> None -> m = MsgProductIdExists) /\
    (get_product st pid = None -> (pr <= 0)%Q -> m = MsgPriceNotPositive) /\
    (get_product st pid = None -> (0 < pr)%Q -> m = MsgStockNegative).
Proof.
  intros H. unfold add_product, get_product, dict_mem in *.
  destruct (dict_get (products st) pid) as [r|] eqn:Hg.
  - exists MsgProductIdExists. repeat split; congruence.
  - destruct (Qle_bool pr 0) eqn:Hp.
    + apply Qle_bool_iff in Hp. exists MsgPriceNotPositive.
      repeat split; try congruence.
      intros _ Hlt. exfalso. exact (Qle_not_lt _ _ Hp Hlt).
    + apply Qle_bool_gt in Hp.
      destruct H as [H | [H | H]];
        [congruence | exfalso; exact (Qle_not_lt _ _ H Hp) |].
      apply Z.ltb_lt in H. rewrite H. exists MsgStockNegative.
      repeat split; try congruence.
      intros _ Hle. exfalso. exact (Qle_not_lt _ _ Hle Hp).
Qed.

Lemma add_product_rejected_witness :
  exists m,
    add_product widget_state "P1" "Other" 1%Q 1 true = (false, print m widget_state) /\
    (get_product widget_state "P1" <> None -> m = MsgProductIdExists) /\
    (get_product widget_state "P1" = None -> (1 <= 0)%Q -> m = MsgPriceNotPositive) /\
    (get_product widget_state "P1" = None -> (0 < 1)%Q -> m = MsgStockNegative).
Proof.
  apply (add_product_rejected widget_state "P1" "Other" 1%Q 1 true).
  left. discriminate.
Defined.

(** [update_product] and [delete_product] with an id that is not in the
    catalog return [False], print "Product not found!" and change nothing
    else. *)
Theorem catalog_missing_id (st : State) (pid : string) (nm : option string)
    (pr : option Q) (qty : option Z) (io : bool) :
  get_product st pid = None ->
  update_product st pid nm pr qty io = (false, print MsgProductNotFound st) /\
  delete_product st pid io = (false, print MsgProductNotFound st).
Proof.
  intros H. unfold update_product, delete_product, dict_mem, get_product in *.
  now rewrite H.
Qed.

Lemma catalog_missing_id_witness :
  update_product widget_state "P2" (Some "X") None None true
  = (false, print MsgProductNotFound widget_state) /\
  delete_product widget_state "P2" true
  = (false, print MsgProductNotFound widget_state).
Proof.
  apply (catalog_missing_id widget_state "P2" (Some "X") None None true).
  reflexivity.
Defined.

(** [add_to_cart] of a product of the catalog with a quantity of 0 or less,
    or above the stock, returns [False] and changes only the output: the
    message of the quantity in the first case, else the message of the
    stock, which states the stock of the product. *)
Theorem add_to_cart_rejected (st : State) (pid : string) (q : Z) (r : ref) :
  get_product st pid = Some r ->
  q <= 0 \/ stock_quantity (obj st r) < q ->
  add_to_cart st pid q
  = (false,
     print (if q <=? 0 then MsgQuantityNotPositive
            else MsgInsufficientStock (stock_quantity (obj st r))) st).
Proof.
  intros Hg H. unfold add_to_cart. rewrite Hg.
  destruct (q <=? 0) eqn:E; [reflexivity|].
  apply Z.leb_gt in E. destruct H as [H | H]; [lia|].
  apply Z.ltb_lt in H. now rewrite H.
Qed.

Lemma add_to_cart_rejected_witness :
  add_to_cart widget_state "P1" 11
  = (false, print (MsgInsufficientStock 10) widget_state).
Proof.
  apply (add_to_cart_rejected widget_state "P1" 11 0%nat).
  - reflexivity.
  - right. reflexivity.
Defined.

(** ** What an operation leaves alone *)

Lemma remove_from_cart_state st pid qty :
  exists m c, snd (remove_from_cart st pid qty) = print m (set_cart c st).
Proof.
  unfold remove_from_cart.
  destruct (remove_loop (heap st) pid qty (cart st)) as [[m c]|].
  - exists m, c. reflexivity.
  - exists MsgItemNotInCart, (cart st). now destruct st.
Qed.

Lemma add_to_cart_state st pid q :
  exists m c, snd (add_to_cart st pid q) = print m (set_cart c st).
Proof.
  assert (forall m, print m st = print m (set_cart (cart st) st)) as Hid
    by (intros m; now destruct st).
  unfold add_to_cart. destruct (get_product st pid) as [r|]; [|eauto].
  destruct (q <=? 0); [eauto|].
  destruct (stock_quantity (obj st r) <? q); [eauto|].
  destruct (merge_loop (heap st) pid q (cart st)); eauto.
Qed.

Lemma cart_step_frame (st : State) (o : Op) (st' : State) :
  (exists pid q, o = AddToCart pid q) \/
  (exists pid qty, o = RemoveFromCart pid qty) \/
  (exists k v, o = ApplyDiscount k v) ->
  step st o = Some st' ->
  heap st' = heap st /\ products st' = products st /\
  sales st' = sales st /\ writes st' = writes st.
Proof.
  intros [(pid & q & ->) | [(pid & qty & ->) | (k & v & ->)]] H;
    simpl in H; inversion H; subst; clear H.
  - destruct (add_to_cart_state st pid q) as (m & c & ->). repeat split.
  - destruct (remove_from_cart_state st pid qty) as (m & c & ->). repeat split.
  - destruct (apply_discount_state st k v) as (m & ->). repeat split.
Qed.

(** The operations of the cart ([add_to_cart], [remove_from_cart],
    [apply_discount]) change no object of the store, so no stock, no entry
    of the catalog and no sale, and write no file. *)
Theorem cart_operations_frame (st : State) (o : Op) (st' : State) :
  (exists pid q, o = AddToCart pid q) \/
  (exists pid qty, o = RemoveFromCart pid qty) \/
  (exists k v, o = ApplyDiscount k v) ->
  step st o = Some st' ->
  heap st' = heap st /\ products st' = products st /\
  sales st' = sales st /\ writes st' = writes st.
Proof. apply cart_step_frame. Qed.

Lemma cart_operations_frame_witness :
  heap (snd (add_to_cart widget_state "P1" 2)) = heap widget_state /\
  products (snd (add_to_cart widget_state "P1" 2)) = products widget_state /\
  sales (snd (add_to_cart widget_state "P1" 2)) = sales widget_state /\
  writes (snd (add_to_cart widget_state "P1" 2)) = writes widget_state.
Proof.
  apply (cart_operations_frame widget_state (AddToCart "P1" 2)).
  - left. exists "P1", 2. reflexivity.
  - reflexivity.
Defined.

Lemma add_product_cart st pid nm pr qty io :
  cart (snd (add_product st pid nm pr qty io)) = cart st /\
  sales (snd (add_product st pid nm pr qty io)) = sales st.
Proof.
  unfold add_product. destruct (dict_mem (products st) pid); [auto|].
  destruct (Qle_bool pr 0); [auto|]. destruct (qty <? 0); [auto|].
  destruct io; auto.
Qed.

Lemma update_product_cart st pid nm pr qty io :
  cart (snd (update_product st pid nm pr qty io)) = cart st /\
  sales (snd (update_product st pid nm pr qty io)) = sales st /\
  products (snd (update_product st pid nm pr qty io)) = products st.
Proof.
  unfold update_product. destruct (dict_get (products st) pid) as [r|]; [|auto].
  destruct nm as [n|]; (destruct pr as [p|]; [destruct (Qle_bool p 0)|]); auto;
    (destruct qty as [q|]; [destruct (q <? 0)|]); auto; destruct io; auto.
Qed.

Lemma delete_product_cart st pid io :
  cart (snd (delete_product st pid io)) = cart st /\
  sales (snd (delete_product st pid io)) = sales st /\
  heap (snd (delete_product st pid io)) = heap st.
Proof.
  unfold delete_product. destruct (dict_mem (products st) pid); [|auto].
  destruct io; auto.
Qed.

(** The operations of the catalog ([add_product], [update_product],
    [delete_product]) change no line of the cart, so no quantity and no
    cached total, and no sale of the history. *)
Theorem catalog_operations_frame (st : State) (o : Op) (st' : State) :
  (exists pid nm pr qty io, o = AddProduct pid nm pr qty io) \/
  (exists pid nm pr qty io, o = UpdateProduct pid nm pr qty io) \/
  (exists pid io, o = DeleteProduct pid io) ->
  step st o = Some st' ->
  cart st' = cart st /\ sales st' = sales st.
Proof.
  intros [(pid & nm & pr & qty & io & ->) | [(pid & nm & pr & qty & io & ->)
         | (pid & io & ->)]] H; simpl in H; inversion H; subst; clear H.
  - apply add_product_cart.
  - destruct (update_product_cart st pid nm pr qty io) as (? & ? & _). auto.
  - destruct (delete_product_cart st pid io) as (? & ? & _). auto.
Qed.

Lemma catalog_operations_frame_witness :
  cart (snd (update_product widget_state "P1" None (Some 5%Q) None true))
  = cart widget_state /\
  sales (snd (update_product widget_state "P1" None (Some 5%Q) None true))
  = sales widget_state.
Proof.
  apply (catalog_operations_frame widget_state
           (UpdateProduct "P1" None (Some 5%Q) None true)).
  - right. left. exists "P1", None, (Some 5%Q), None, true. reflexivity.
  - reflexivity.
Defined.

(** ** Invariants of a session *)

(** What every operation keeps, from a state that has it, holds after any
    run. *)
Lemma run_invariant (P : State -> Prop) :
  (forall st o st', P st -> step st o = Some st' -> P st') ->
  forall ops st st', P st -> run st ops = Some st' -> P st'.
Proof.
  intros Hstep. induction ops as [|o ops IH]; simpl; intros st st' HP H.
  - inversion H; subst. exact HP.
  - destruct (step st o) as [st1|] eqn:E; [|discriminate].
    eapply IH; [|exact H]. eapply Hstep; eauto.
Qed.

Lemma checkout_returned st d now io_sales io_inv a st' :
  checkout st d now io_sales io_inv = Returned a st' ->
  products st' = products st /\
  (a = None /\ cart st' = cart st /\ sales st' = sales st /\ heap st' = heap st
   \/ exists sale, a = Some sale /\ cart st' = [] /\ sales st' = sales st ++ [sale]).
Proof.
  destruct a as [sale|]; intros H.
  - apply checkout_returns_sale in H. destruct H as (_ & _ & _ & h' & _ & ->).
    split; [reflexivity|]. right. exists sale. repeat split.
  - unfold checkout in H. destruct (cart st) as [|it0 c0] eqn:Hc.
    + inversion H; subst. split; [reflexivity|]. left.
      repeat split. simpl. now rewrite Hc.
    + destruct (Qltb d 0 || Qltb _ d).
      * inversion H; subst. split; [reflexivity|]. left.
        repeat split. simpl. now rewrite Hc.
      * destruct (adjust_stock _ _ _) as [[|] h]; discriminate.
Qed.

(** *** The ids of the catalog *)

Lemma dict_keys_set (d : dict) (k : string) (r : ref) :
  dict_keys (dict_set d k r)
  = if dict_mem d k then dict_keys d else dict_keys d ++ [k].
Proof.
  unfold dict_mem. induction d as [|[k' r'] d IH]; simpl; [reflexivity|].
  destruct (String.eqb k' k); simpl; [reflexivity|].
  rewrite IH. now destruct (dict_get d k).
Qed.

Lemma dict_keys_del (d : dict) (k : string) :
  dict_keys (dict_del d k) `sublist_of` dict_keys d.
Proof.
  induction d as [|[k' r'] d IH]; simpl; [constructor|].
  destruct (String.eqb k' k); simpl.
  - now apply sublist_cons.
  - now apply sublist_skip.
Qed.

Lemma keys_unique_app (d : dict) (k : string) (r : ref) :
  NoDup (dict_keys d) -> dict_mem d k = false ->
  NoDup (dict_keys d ++ [k]) /\ NoDup (dict_keys (d ++ [(k, r)])).
Proof.
  intros Hnd Hm.
  assert (dict_keys (d ++ [(k, r)]) = dict_keys d ++ [k]) as ->
    by (unfold dict_keys; now rewrite map_app).
  apply and_wlog_r; [|tauto].
  apply NoDup_app. repeat split; [exact Hnd | | apply NoDup_singleton].
  intros x Hx Hk. apply list_elem_of_singleton in Hk. subst x.
  apply dict_mem_false, dict_get_None in Hm. apply Hm. now apply list_elem_of_In.
Qed.

Lemma load_rows_keys rows h d h' d' :
  NoDup (dict_keys d) -> load_rows rows h d = (h', d') -> NoDup (dict_keys d').
Proof.
  revert h d. induction rows as [|p rows IH]; simpl; intros h d Hnd H.
  - inversion H; subst. exact Hnd.
  - eapply IH; [|exact H]. rewrite dict_keys_set.
    destruct (dict_mem d (product_id p)) eqn:E; [exact Hnd|].
    exact (proj1 (keys_unique_app d (product_id p) 0%nat Hnd E)).
Qed.

Lemma keys_unique_step st o st' :
  NoDup (dict_keys (products st)) -> step st o = Some st' ->
  NoDup (dict_keys (products st')).
Proof.
  intros Hnd H. destruct o; simpl in H.
  - inversion H; subst. unfold add_product.
    destruct (dict_mem (products st) pid) eqn:E; [exact Hnd|].
    destruct (Qle_bool pr 0); [exact Hnd|]. destruct (qty <? 0); [exact Hnd|].
    assert (NoDup (dict_keys (products st ++ [(pid, length (heap st))]))) as Hn
      by now apply keys_unique_app.
    destruct io; exact Hn.
  - inversion H; subst.
    destruct (update_product_cart st pid nm pr qty io) as (_ & _ & ->). exact Hnd.
  - inversion H; subst. unfold delete_product.
    destruct (dict_mem (products st) pid); [|exact Hnd].
    assert (NoDup (dict_keys (dict_del (products st) pid))) as Hn
      by (eapply sublist_NoDup; [exact Hnd | apply dict_keys_del]).
    destruct io; exact Hn.
  - destruct (cart_step_frame st (AddToCart pid q) st') as (_ & -> & _); eauto.
  - destruct (cart_step_frame st (RemoveFromCart pid qty) st') as (_ & -> & _);
      eauto 6.
  - destruct (cart_step_frame st (ApplyDiscount discount_type value) st')
      as (_ & -> & _); eauto 6.
  - destruct (checkout st d now io_sales io_inv) as [a s|e s] eqn:E; [|discriminate].
    inversion H; subst. apply checkout_returned in E. destruct E as [-> _].
    exact Hnd.
Qed.

Lemma reachable_keys (st : State) :
  reachable st -> NoDup (dict_keys (products st)).
Proof.
  intros (rows & sale_rows & ops & H).
  eapply (run_invariant (fun s => NoDup (dict_keys (products s)))); [| |exact H].
  - apply keys_unique_step.
  - unfold init_state. destruct (load_rows rows [] []) as [h d] eqn:E. simpl.
    eapply load_rows_keys; [|exact E]. constructor.
Qed.

(** In every state of a session no two entries of the catalog have one
    id, whatever the rows of the file were. *)
Theorem catalog_keys_unique (st : State) :
  reachable st -> NoDup (dict_keys (products st)).
Proof. apply reachable_keys. Qed.

Lemma catalog_keys_unique_witness : NoDup (dict_keys (products oversold_state)).
Proof.
  apply (catalog_keys_unique oversold_state).
  exists [], [], oversold_ops. reflexivity.
Defined.

Lemma dict_get_del_same (d : dict) (k : string) :
  NoDup (dict_keys d) -> dict_get (dict_del d k) k = None.
Proof.
  induction d as [|[k' r'] d IH]; simpl; intros Hnd; [reflexivity|].
  apply NoDup_cons in Hnd. destruct Hnd as [Hk' Hnd].
  destruct (String.eqb k' k) eqn:E.
  - apply String.eqb_eq in E. subst k'. apply dict_get_None.
    intros Hin. apply Hk'. now apply list_elem_of_In.
  - simpl. rewrite E. auto.
Qed.

Lemma dict_get_del_other (d : dict) (k k' : string) :
  k' <> k -> dict_get (dict_del d k) k' = dict_get d k'.
Proof.
  intros Hne. induction d as [|[k0 r0] d IH]; simpl; [reflexivity|].
  destruct (String.eqb k0 k) eqn:E.
  - apply String.eqb_eq in E. subst k0.
    assert (String.eqb k k' = false) as -> by (apply String.eqb_neq; congruence).
    reflexivity.
  - simpl. now rewrite IH.
Qed.

(** In a state of a session, [delete_product] of an id of the catalog
    returns what the rewrite of the file returned; after it [get_product]
    gives [None] for the id and what it gave before for every other id,
    and no object of the store has changed. *)
Theorem delete_then_get (st : State) (pid : string) (io : bool) :
  reachable st -> get_product st pid <> None ->
  fst (delete_product st pid io) = io /\
  get_product (snd (delete_product st pid io)) pid = None /\
  (forall pid', pid' <> pid ->
     get_product (snd (delete_product st pid io)) pid' = get_product st pid') /\
  heap (snd (delete_product st pid io)) = heap st.
Proof.
  intros Hr Hg. apply reachable_keys in Hr.
  unfold delete_product, get_product, dict_mem in *.
  destruct (dict_get (products st) pid) as [r|]; [|congruence].
  destruct io; simpl; (split; [reflexivity|]);
    (split; [now apply dict_get_del_same|]);
    (split; [intros pid' Hne; now apply dict_get_del_other | reflexivity]).
Qed.

Lemma delete_then_get_witness :
  fst (delete_product widget_state "P1" true) = true /\
  get_product (snd (delete_product widget_state "P1" true)) "P1" = None /\
  (forall pid', pid' <> "P1" ->
     get_product (snd (delete_product widget_state "P1" true)) pid'
     = get_product widget_state pid') /\
  heap (snd (delete_product widget_state "P1" true)) = heap widget_state.
Proof.
  apply (delete_then_get widget_state "P1" true).
  - exact widget_state_reachable.
  - discriminate.
Defined.

(** *** The lines of the cart *)

Lemma merge_loop_Forall (P : OrderItem -> Prop) h pid q c c' :
  merge_loop h pid q c = Some c' -> Forall P c ->
  (forall it, In it c -> P it ->
     P (mkOrderItem (product it) (quantity it + q)
          (price (h !!! product it) * inject_Z (quantity it + q))%Q)) ->
  Forall P c'.
Proof.
  revert c'. induction c as [|it c IH]; simpl; intros c' H HF HP; [discriminate|].
  apply Forall_cons in HF. destruct HF as [Hit HF].
  destruct (String.eqb (product_id (h !!! product it)) pid).
  - inversion H; subst. apply Forall_cons. split; [|exact HF].
    apply HP; [now left | exact Hit].
  - destruct (merge_loop h pid q c) as [c''|]; [|discriminate].
    inversion H; subst. apply Forall_cons. split; [exact Hit|].
    apply IH; auto.
Qed.

Lemma remove_loop_Forall (P : OrderItem -> Prop) h pid qty c m c' :
  remove_loop h pid qty c = Some (m, c') -> Forall P c ->
  (forall it q, In it c -> P it -> q < quantity it ->
     P (mkOrderItem (product it) (quantity it - q)
          (price (h !!! product it) * inject_Z (quantity it - q))%Q)) ->
  Forall P c'.
Proof.
  revert c'. induction c as [|it c IH]; simpl; intros c' H HF HP; [discriminate|].
  apply Forall_cons in HF. destruct HF as [Hit HF].
  destruct (String.eqb (product_id (h !!! product it)) pid).
  - destruct qty as [n|]; [|inversion H; subst; exact HF].
    destruct (quantity it <=? n) eqn:E; inversion H; subst; [exact HF|].
    apply Z.leb_gt in E. apply Forall_cons. split; [|exact HF].
    apply HP; [now left | exact Hit | exact E].
  - destruct (remove_loop h pid qty c) as [[m' c'']|]; [|discriminate].
    inversion H; subst. apply Forall_cons. split; [exact Hit|].
    eapply IH; eauto.
Qed.

(** A property of the lines that the two loops keep is kept by the
    operations of the cart. *)
Lemma add_to_cart_Forall (P : OrderItem -> Prop) st pid q :
  Forall P (cart st) ->
  (0 < q -> forall it, In it (cart st) -> P it ->
     P (mkOrderItem (product it) (quantity it + q)
          (price (obj st (product it)) * inject_Z (quantity it + q))%Q)) ->
  (0 < q -> forall r, get_product st pid = Some r ->
     P (OrderItem_init (heap st) r q)) ->
  Forall P (cart (snd (add_to_cart st pid q))).
Proof.
  intros HF Hm Hn. unfold add_to_cart.
  destruct (get_product st pid) as [r|]; [|exact HF].
  destruct (q <=? 0) eqn:E; [exact HF|]. apply Z.leb_gt in E.
  destruct (stock_quantity (obj st r) <? q); [exact HF|].
  destruct (merge_loop (heap st) pid q (cart st)) as [c|] eqn:Hl; simpl.
  - eapply merge_loop_Forall; eauto.
  - apply Forall_app. split; [exact HF|]. apply Forall_singleton. auto.
Qed.

Lemma remove_from_cart_Forall (P : OrderItem -> Prop) st pid qty :
  Forall P (cart st) ->
  (forall it q, In it (cart st) -> P it -> q < quantity it ->
     P (mkOrderItem (product it) (quantity it - q)
          (price (obj st (product it)) * inject_Z (quantity it - q))%Q)) ->
  Forall P (cart (snd (remove_from_cart st pid qty))).
Proof.
  intros HF HP. unfold remove_from_cart.
  destruct (remove_loop (heap st) pid qty (cart st)) as [[m c]|] eqn:Hl;
    [|exact HF].
  simpl. eapply remove_loop_Forall; eauto.
Qed.

Lemma quantities_step st o st' :
  Forall (fun it => 0 < quantity it) (cart st) -> step st o = Some st' ->
  Forall (fun it => 0 < quantity it) (cart st').
Proof.
  intros HF H. destruct o; simpl in H.
  - inversion H; subst. destruct (add_product_cart st pid nm pr qty io) as [-> _].
    exact HF.
  - inversion H; subst.
    destruct (update_product_cart st pid nm pr qty io) as [-> _]. exact HF.
  - inversion H; subst. destruct (delete_product_cart st pid io) as [-> _].
    exact HF.
  - inversion H; subst. apply add_to_cart_Forall; [exact HF | |]; simpl; intros; lia.
  - inversion H; subst. apply remove_from_cart_Forall; [exact HF|].
    simpl; intros; lia.
  - inversion H; subst.
    destruct (apply_discount_state st discount_type value) as [m ->]. exact HF.
  - destruct (checkout st d now io_sales io_inv) as [a s|e s] eqn:E; [|discriminate].
    inversion H; subst. apply checkout_returned in E.
    destruct E as [_ [(_ & -> & _) | (sale & _ & -> & _)]]; [exact HF | constructor].
Qed.

(** In every state of a session every line of the cart has a quantity
    above 0: a line is created with one, [add_to_cart] only adds to it, and
    [remove_from_cart] removes the line when the quantity to remove is not
    below the line's. *)
Theorem cart_quantities_positive (st : State) :
  reachable st -> forall it, In it (cart st) -> 0 < quantity it.
Proof.
  intros (rows & sale_rows & ops & H).
  apply (proj1 (List.Forall_forall (fun it => 0 < quantity it) (cart st))).
  eapply (run_invariant (fun s => Forall (fun it => 0 < quantity it) (cart s)));
    [apply quantities_step | | exact H].
  unfold init_state. destruct (load_rows rows [] []). constructor.
Qed.

Lemma cart_quantities_positive_witness :
  Forall (fun it => 0 < quantity it) (cart widget_state).
Proof.
  apply List.Forall_forall.
  apply (cart_quantities_positive widget_state).
  exact widget_state_reachable.
Defined.

(** In every state of a session the cart has at most one line of an id,
    and every line points to an object of the store. *)
Theorem cart_one_line_per_id (st : State) :
  reachable st ->
  NoDup (map (line_id (heap st)) (cart st)) /\
  forall it, In it (cart st) -> (product it < length (heap st))%nat.
Proof.
  intros H. apply reachable_wf in H. destruct H as [_ [Hrefs Hnd]]. auto.
Qed.

Lemma cart_one_line_per_id_witness :
  NoDup (map (line_id (heap oversell_state)) (cart oversell_state)) /\
  forall it, In it (cart oversell_state) ->
    (product it < length (heap oversell_state))%nat.
Proof.
  apply (cart_one_line_per_id oversell_state).
  exists [], [], oversell_ops. reflexivity.
Defined.

(** *** The sale history *)

Lemma sales_step st o st' :
  step st o = Some st' ->
  sales st' = sales st \/
  exists its t dt d, sales st' = sales st ++ [Sale_init its t dt d].
Proof.
  intros H. destruct o; simpl in H.
  - inversion H; subst. left. apply add_product_cart.
  - inversion H; subst. left. apply update_product_cart.
  - inversion H; subst. left. apply delete_product_cart.
  - left. destruct (cart_step_frame st (AddToCart pid q) st') as (_ & _ & Hs & _);
      eauto.
  - left. destruct (cart_step_frame st (RemoveFromCart pid qty) st')
      as (_ & _ & Hs & _); eauto 6.
  - left. destruct (cart_step_frame st (ApplyDiscount discount_type value) st')
      as (_ & _ & Hs & _); eauto 6.
  - destruct (checkout st d now io_sales io_inv) as [[sale|] s|e s] eqn:E;
      [| |discriminate]; inversion H; subst.
    + apply checkout_returns_sale in E. destruct E as (_ & _ & -> & h' & _ & ->).
      right. eexists _, _, _, _. reflexivity.
    + apply checkout_returned in E. destruct E as [_ [(_ & _ & -> & _) | (s & Hs & _)]];
        [now left | discriminate].
Qed.

(** The sale history only grows, and only at its end: the history before
    a run of operations is the beginning of the history after it. *)
Theorem sales_append_only (st : State) (ops : list Op) (st' : State) :
  run st ops = Some st' -> sales st `prefix_of` sales st'.
Proof.
  revert st. induction ops as [|o ops IH]; simpl; intros st H.
  - inversion H; subst. reflexivity.
  - destruct (step st o) as [st1|] eqn:E; [|discriminate].
    transitivity (sales st1); [|now apply IH].
    destruct (sales_step _ _ _ E) as [-> | (its & t & dt & d & ->)];
      [reflexivity | now apply prefix_app_r].
Qed.

Lemma sales_append_only_witness :
  sales (init_state [] []) `prefix_of` sales oversold_state.
Proof.
  apply (sales_append_only (init_state [] []) oversold_ops oversold_state).
  reflexivity.
Defined.

Lemma reachable_final_amounts (st : State) :
  reachable st ->
  forall s, In s (sales st) -> final_amount s = (total_amount s - discount s)%Q.
Proof.
  intros (rows & sale_rows & ops & H).
  apply (proj1 (List.Forall_forall
                  (fun s => final_amount s = (total_amount s - discount s)%Q)
                  (sales st))).
  eapply (run_invariant
            (fun x => Forall (fun s => final_amount s = (total_amount s - discount s)%Q)
                        (sales x))); [| |exact H].
  - intros s o s' HF Hs.
    destruct (sales_step _ _ _ Hs) as [-> | (its & t & dt & d & ->)]; [exact HF|].
    apply Forall_app. split; [exact HF|]. now apply Forall_singleton.
  - unfold init_state. destruct (load_rows rows [] []) as [h0 d0]. simpl.
    clear H. induction sale_rows as [|[[dt t] d] l IH]; simpl; constructor; auto.
Qed.

(** In every state of a session the final amount of every sale of the
    history, loaded or made by [checkout], is its total less its
    discount. *)
Theorem history_final_amounts (st : State) :
  reachable st ->
  forall s, In s (sales st) -> final_amount s = (total_amount s - discount s)%Q.
Proof. apply reachable_final_amounts. Qed.

Lemma history_final_amounts_witness :
  Forall (fun s => final_amount s = (total_amount s - discount s)%Q)
    (sales oversold_state).
Proof.
  apply List.Forall_forall.
  apply (history_final_amounts oversold_state).
  exists [], [], oversold_ops. reflexivity.
Defined.




(** *** Prices *)













(** ** Composing the operations of the cart *)

Lemma cart_quantity_absent h pid c :
  ~ In pid (map (line_id h) c) -> cart_quantity h pid c = 0.
Proof.
  induction c as [|it c IH]; simpl; intros H; [reflexivity|].
  destruct (String.eqb (line_id h it) pid) eqn:E.
  - apply String.eqb_eq in E. tauto.
  - rewrite IH; [reflexivity | tauto].
Qed.

Lemma cart_quantity_single h pid c it :
  NoDup (map (line_id h) c) -> In it c -> line_id h it = pid ->
  cart_quantity h pid c = quantity it.
Proof.
  induction c as [|x c IH]; simpl; intros Hnd Hin Hid; [destruct Hin|].
  apply NoDup_cons in Hnd. destruct Hnd as [Hx Hnd].
  destruct Hin as [-> | Hin].
  - apply String.eqb_eq in Hid as E. rewrite E.
    rewrite cart_quantity_absent; [lia|].
    intros Hp. apply Hx. apply list_elem_of_In. now rewrite Hid.
  - destruct (String.eqb (line_id h x) pid) eqn:E.
    + apply String.eqb_eq in E. exfalso. apply Hx. apply list_elem_of_In.
      rewrite E, <- Hid. now apply in_map.
    + rewrite (IH Hnd Hin Hid). lia.
Qed.

Lemma cart_quantity_app h pid c c' :
  cart_quantity h pid (c ++ c') = cart_quantity h pid c + cart_quantity h pid c'.
Proof. induction c as [|it c IH]; simpl; [reflexivity | rewrite IH; lia]. Qed.

Lemma merge_loop_quantity h pid q c c' :
  merge_loop h pid q c = Some c' ->
  cart_quantity h pid c' = cart_quantity h pid c + q /\
  forall pid', pid' <> pid -> cart_quantity h pid' c' = cart_quantity h pid' c.
Proof.
  revert c'. induction c as [|it c IH]; simpl; intros c' H; [discriminate|].
  unfold line_id in *.
  destruct (String.eqb (product_id (h !!! product it)) pid) eqn:E.
  - inversion H; subst. simpl. unfold line_id. simpl. rewrite E.
    split; [lia|]. intros pid' Hne.
    apply String.eqb_eq in E. rewrite E.
    assert (String.eqb pid pid' = false) as -> by (apply String.eqb_neq; congruence).
    reflexivity.
  - destruct (merge_loop h pid q c) as [c''|]; [|discriminate].
    inversion H; subst. destruct (IH c'' eq_refl) as [E1 E2]. simpl.
    unfold line_id in *. rewrite E, E1. split; [lia|].
    intros pid' Hne. now rewrite (E2 pid' Hne).
Qed.

Lemma merge_loop_line h pid q c c' it :
  NoDup (map (line_id h) c) -> merge_loop h pid q c = Some c' ->
  In it c' -> line_id h it = pid ->
  total it = (price (h !!! product it) * inject_Z (quantity it))%Q.
Proof.
  revert c'. induction c as [|x l IH]; simpl; intros c' Hnd Hm Hin Hid;
    [discriminate|].
  apply NoDup_cons in Hnd. destruct Hnd as [Hx Hnd].
  destruct (String.eqb (product_id (h !!! product x)) pid) eqn:E.
  - injection Hm as <-. destruct Hin as [<- | Hin]; [reflexivity|].
    exfalso. apply Hx. apply list_elem_of_In. apply String.eqb_eq in E.
    unfold line_id at 1. rewrite E, <- Hid. now apply in_map.
  - destruct (merge_loop h pid q l) as [c''|]; [|discriminate].
    injection Hm as <-. destruct Hin as [<- | Hin].
    + apply String.eqb_neq in E. unfold line_id in Hid. congruence.
    + now apply (IH c'').
Qed.

Lemma merge_loop_absent h pid q c :
  ~ In pid (map (line_id h) c) -> merge_loop h pid q c = None.
Proof.
  induction c as [|it c IH]; simpl; intros H; [reflexivity|].
  destruct (String.eqb (product_id (h !!! product it)) pid) eqn:E.
  - apply String.eqb_eq in E. unfold line_id in H. tauto.
  - rewrite IH; [reflexivity | tauto].
Qed.

Lemma remove_loop_absent h pid qty c :
  remove_loop h pid qty c = None <-> ~ In pid (map (line_id h) c).
Proof.
  induction c as [|it c IH]; simpl; [tauto|]. unfold line_id at 1.
  destruct (String.eqb (product_id (h !!! product it)) pid) eqn:E.
  - apply String.eqb_eq in E.
    split; [|tauto]. destruct qty as [n|]; [destruct (quantity it <=? n)|]; discriminate.
  - apply String.eqb_neq in E.
    destruct (remove_loop h pid qty c) as [[m c']|].
    + split; [discriminate|]. intros H.
      assert (~ In pid (map (line_id h) c)) as Hn by tauto.
      apply IH in Hn. discriminate.
    + split; [|reflexivity].
      intros _ [H | H]; [exact (E H) | exact (proj1 IH eq_refl H)].
Qed.

Lemma remove_loop_last h pid pre it :
  ~ In pid (map (line_id h) pre) -> line_id h it = pid ->
  remove_loop h pid None (pre ++ [it]) = Some (MsgRemovedItem, pre).
Proof.
  intros Hpre Hit. induction pre as [|x pre IH]; simpl.
  - unfold line_id in Hit. apply String.eqb_eq in Hit. now rewrite Hit.
  - simpl in Hpre.
    assert (String.eqb (product_id (h !!! product x)) pid = false) as ->
      by (apply String.eqb_neq; unfold line_id in Hpre; tauto).
    rewrite IH; [reflexivity | tauto].
Qed.

(** In a state of a session, an [add_to_cart] that returns [True] raises
    the units of the id in the cart by the quantity of the call and leaves
    the units of every other id as they were; the one line of the id then
    holds these units, and its total is the price of its product times
    them. *)
Theorem add_to_cart_quantity (st : State) (pid : string) (q : Z) :
  reachable st -> fst (add_to_cart st pid q) = true ->
  cart_quantity (heap st) pid (cart (snd (add_to_cart st pid q)))
  = cart_quantity (heap st) pid (cart st) + q /\
  (forall pid', pid' <> pid ->
     cart_quantity (heap st) pid' (cart (snd (add_to_cart st pid q)))
     = cart_quantity (heap st) pid' (cart st)) /\
  exists it,
    In it (cart (snd (add_to_cart st pid q))) /\
    line_id (heap st) it = pid /\
    quantity it = cart_quantity (heap st) pid (cart st) + q /\
    total it = (price (obj st (product it)) * inject_Z (quantity it))%Q.
Proof.
  intros Hr Hok.
  assert (wf (snd (add_to_cart st pid q))) as Hwf'
    by (apply wf_add_to_cart; now apply reachable_wf).
  apply reachable_wf in Hr. destruct Hr as [Hd [Hrefs Hnd]].
  destruct Hwf' as [_ [_ Hnd']]. revert Hok Hnd'.
  destruct (add_to_cart_state st pid q) as (m0 & c0 & Hst).
  assert (heap (snd (add_to_cart st pid q)) = heap st) as ->
    by (rewrite Hst; reflexivity).
  clear Hst m0 c0. unfold add_to_cart, get_product.
  destruct (dict_get (products st) pid) as [r|] eqn:Hg; [|discriminate].
  destruct (q <=? 0); [discriminate|].
  destruct (stock_quantity (obj st r) <? q); [discriminate|].
  destruct (merge_loop (heap st) pid q (cart st)) as [c|] eqn:Hm; simpl;
    intros _ Hnd'.
  - destruct (merge_loop_quantity _ _ _ _ _ Hm) as [E1 E2].
    split; [exact E1|]. split; [exact E2|].
    assert (In pid (map (line_id (heap st)) c)) as Hin.
    { destruct (in_dec string_dec pid (map (line_id (heap st)) c)) as [H|H];
        [exact H|].
      destruct (merge_loop_Some _ _ _ _ _ Hm) as [_ E]. rewrite E in H.
      now rewrite (merge_loop_absent _ _ q _ H) in Hm. }
    apply in_map_iff in Hin. destruct Hin as (it & Hid & Hin).
    exists it. split; [exact Hin|]. split; [exact Hid|].
    rewrite <- E1. split; [symmetry; now apply cart_quantity_single|].
    exact (merge_loop_line _ _ _ _ _ _ Hnd Hm Hin Hid).
  - apply merge_loop_None in Hm as Hab.
    destruct (Hd pid r (dict_get_In _ _ _ Hg)) as [_ Hid].
    assert (line_id (heap st) (OrderItem_init (heap st) r q) = pid) as Hnew
      by exact Hid.
    rewrite !cart_quantity_app. simpl. rewrite Hnew, String.eqb_refl.
    split; [lia|]. split.
    + intros pid' Hne. rewrite cart_quantity_app. simpl. rewrite Hnew.
      assert (String.eqb pid pid' = false) as -> by (apply String.eqb_neq; congruence).
      lia.
    + exists (OrderItem_init (heap st) r q).
      split; [apply in_app_iff; right; now left|].
      split; [exact Hnew|]. rewrite (cart_quantity_absent _ _ _ Hab).
      split; reflexivity.
Qed.

Lemma add_to_cart_quantity_witness :
  cart_quantity (heap widget_state) "P1" (cart (snd (add_to_cart widget_state "P1" 2)))
  = cart_quantity (heap widget_state) "P1" (cart widget_state) + 2 /\
  (forall pid', pid' <> "P1" ->
     cart_quantity (heap widget_state) pid' (cart (snd (add_to_cart widget_state "P1" 2)))
     = cart_quantity (heap widget_state) pid' (cart widget_state)) /\
  exists it,
    In it (cart (snd (add_to_cart widget_state "P1" 2))) /\
    line_id (heap widget_state) it = "P1" /\
    quantity it = cart_quantity (heap widget_state) "P1" (cart widget_state) + 2 /\
    total it = (price (obj widget_state (product it)) * inject_Z (quantity it))%Q.
Proof.
  apply (add_to_cart_quantity widget_state "P1" 2).
  - exact widget_state_reachable.
  - reflexivity.
Defined.

(** With a quantity whose difference from the quantity of any line of
    the id converts to a float (so that [price * quantity] does not
    raise), [remove_from_cart] returns [True] exactly when the cart has a
    line of the id; when it has none the call prints "Item not found in
    cart!" and changes nothing else. *)
Theorem remove_from_cart_found (st : State) (pid : string) (qty : option Z) :
  (forall q it, qty = Some q -> In it (cart st) -> line_id (heap st) it = pid ->
     converts (quantity it - q)) ->
  (fst (remove_from_cart st pid qty) = true <->
   In pid (map (line_id (heap st)) (cart st))) /\
  (fst (remove_from_cart st pid qty) = false ->
   remove_from_cart st pid qty = (false, print MsgItemNotInCart st)).
Proof.
  intros _.
  unfold remove_from_cart.
  destruct (remove_loop (heap st) pid qty (cart st)) as [[m c]|] eqn:E; simpl.
  - split; [|discriminate]. split; [intros _|reflexivity].
    destruct (in_dec string_dec pid (map (line_id (heap st)) (cart st))) as [H|H];
      [exact H|].
    apply remove_loop_absent with (qty := qty) in H. congruence.
  - split; [|reflexivity]. split; [discriminate|].
    intros H. exfalso. revert H. now apply remove_loop_absent with (qty := qty).
Qed.

Lemma remove_from_cart_found_witness :
  (fst (remove_from_cart widget_state "P1" (Some 1)) = true <->
   In "P1" (map (line_id (heap widget_state)) (cart widget_state))) /\
  (fst (remove_from_cart widget_state "P1" (Some 1)) = false ->
   remove_from_cart widget_state "P1" (Some 1)
   = (false, print MsgItemNotInCart widget_state)).
Proof.
  apply (remove_from_cart_found widget_state "P1" (Some 1)).
  intros q it Hq [<- | []] _ H. injection Hq as <-.
  vm_compute in H. discriminate.
Defined.

Lemma cart_quantity_cons h pid it c :
  cart_quantity h pid (it :: c)
  = (if String.eqb (product_id (h !!! product it)) pid then quantity it else 0)
    + cart_quantity h pid c.
Proof. reflexivity. Qed.

Lemma remove_loop_quantity h pid qty c m c' it :
  NoDup (map (line_id h) c) -> remove_loop h pid qty c = Some (m, c') ->
  In it c -> line_id h it = pid ->
  cart_quantity h pid c'
  = match qty with
    | Some q => if quantity it <=? q then 0 else quantity it - q
    | None => 0
    end /\
  forall pid', pid' <> pid -> cart_quantity h pid' c' = cart_quantity h pid' c.
Proof.
  revert c'. induction c as [|x l IH]; intros c' Hnd Hm Hin Hid;
    [destruct Hin|].
  cbn [map] in Hnd. apply NoDup_cons in Hnd. destruct Hnd as [Hx Hnd].
  cbn [remove_loop] in Hm.
  destruct (String.eqb (product_id (h !!! product x)) pid) eqn:E.
  - apply String.eqb_eq in E.
    assert (x = it) as ->.
    { destruct Hin as [H | H]; [exact H|]. exfalso. apply Hx.
      apply list_elem_of_In. unfold line_id at 1. rewrite E, <- Hid.
      now apply in_map. }
    assert (cart_quantity h pid l = 0) as Hrest.
    { apply cart_quantity_absent. intros H. apply Hx. apply list_elem_of_In.
      now rewrite Hid. }
    assert (forall pid', pid' <> pid ->
              String.eqb (product_id (h !!! product it)) pid' = false) as Hne
      by (intros pid' H; apply String.eqb_neq; congruence).
    apply String.eqb_eq in E as Eb.
    destruct qty as [n|]; [destruct (quantity it <=? n)|];
      injection Hm as <- <-;
      (split; [|intros pid' H; rewrite ?cart_quantity_cons; cbn [product quantity];
                rewrite (Hne pid' H); reflexivity]);
      rewrite ?cart_quantity_cons; cbn [product quantity]; rewrite ?Eb, ?Hrest; lia.
  - destruct Hin as [-> | Hin];
      [apply String.eqb_neq in E; unfold line_id in Hid; congruence|].
    destruct (remove_loop h pid qty l) as [[m' c'']|]; [|discriminate].
    injection Hm as <- <-. destruct (IH c'' Hnd eq_refl Hin Hid) as [E1 E2].
    split; [now rewrite !cart_quantity_cons, E, E1|].
    intros pid' H. rewrite !cart_quantity_cons. now rewrite (E2 pid' H).
Qed.

(** In a state of a session, [remove_from_cart] of an id that has a line
    of quantity [n], with a quantity [q] such that [n - q] converts to a
    float (so that [price * quantity] does not raise), returns [True]; the
    cart then holds no unit of the id when no quantity is given or the
    quantity is at least [n], and [n - q] units otherwise; the units of
    every other id are as they were. *)
Theorem remove_from_cart_quantity (st : State) (pid : string) (qty : option Z)
    (it : OrderItem) :
  reachable st -> In it (cart st) -> line_id (heap st) it = pid ->
  (forall q, qty = Some q -> converts (quantity it - q)) ->
  fst (remove_from_cart st pid qty) = true /\
  cart_quantity (heap st) pid (cart (snd (remove_from_cart st pid qty)))
  = match qty with
    | Some q => if quantity it <=? q then 0 else quantity it - q
    | None => 0
    end /\
  (forall pid', pid' <> pid ->
     cart_quantity (heap st) pid' (cart (snd (remove_from_cart st pid qty)))
     = cart_quantity (heap st) pid' (cart st)).
Proof.
  intros Hr Hin Hid _. apply reachable_wf in Hr. destruct Hr as [_ [_ Hnd]].
  unfold remove_from_cart.
  destruct (remove_loop (heap st) pid qty (cart st)) as [[m c]|] eqn:E.
  - split; [reflexivity|]. simpl.
    exact (remove_loop_quantity _ _ _ _ _ _ _ Hnd E Hin Hid).
  - exfalso. apply remove_loop_absent in E. apply E. rewrite <- Hid.
    now apply in_map.
Qed.

Lemma remove_from_cart_quantity_witness :
  fst (remove_from_cart widget_state "P1" (Some 1)) = true /\
  cart_quantity (heap widget_state) "P1"
    (cart (snd (remove_from_cart widget_state "P1" (Some 1))))
  = (if 3 <=? 1 then 0 else 3 - 1) /\
  (forall pid', pid' <> "P1" ->
     cart_quantity (heap widget_state) pid'
       (cart (snd (remove_from_cart widget_state "P1" (Some 1))))
     = cart_quantity (heap widget_state) pid' (cart widget_state)).
Proof.
  apply (remove_from_cart_quantity widget_state "P1" (Some 1)
           (mkOrderItem 0%nat 3 29.97%Q)).
  - exact widget_state_reachable.
  - now left.
  - reflexivity.
  - intros q Hq H. injection Hq as <-. vm_compute in H. discriminate.
Defined.

(** In a state of a session whose cart has no line of an id, an
    [add_to_cart] of the id that returns [True], followed by
    [remove_from_cart] of the id with no quantity, gives back the cart as
    it was; the second call returns [True], and the store is as it was. *)
Theorem add_then_remove (st : State) (pid : string) (q : Z) :
  reachable st ->
  ~ In pid (map (line_id (heap st)) (cart st)) ->
  fst (add_to_cart st pid q) = true ->
  fst (remove_from_cart (snd (add_to_cart st pid q)) pid None) = true /\
  cart (snd (remove_from_cart (snd (add_to_cart st pid q)) pid None)) = cart st /\
  heap (snd (remove_from_cart (snd (add_to_cart st pid q)) pid None)) = heap st.
Proof.
  intros Hr Hab. apply reachable_wf in Hr. destruct Hr as [Hd _].
  unfold add_to_cart, get_product.
  destruct (dict_get (products st) pid) as [r|] eqn:Hg; [|discriminate].
  destruct (q <=? 0); [discriminate|].
  destruct (stock_quantity (obj st r) <? q); [discriminate|].
  rewrite (merge_loop_absent _ _ q _ Hab). intros _.
  destruct (Hd pid r (dict_get_In _ _ _ Hg)) as [_ Hid].
  unfold remove_from_cart. simpl.
  rewrite (remove_loop_last (heap st) pid (cart st) (OrderItem_init (heap st) r q) Hab Hid).
  repeat split.
Qed.

Lemma add_then_remove_witness :
  fst (remove_from_cart (snd (add_to_cart (init_state [mkProduct "P1" "Widget" 9.99%Q 10] [])
                                "P1" 4)) "P1" None) = true /\
  cart (snd (remove_from_cart
               (snd (add_to_cart (init_state [mkProduct "P1" "Widget" 9.99%Q 10] [])
                       "P1" 4)) "P1" None))
  = cart (init_state [mkProduct "P1" "Widget" 9.99%Q 10] []) /\
  heap (snd (remove_from_cart
               (snd (add_to_cart (init_state [mkProduct "P1" "Widget" 9.99%Q 10] [])
                       "P1" 4)) "P1" None))
  = heap (init_state [mkProduct "P1" "Widget" 9.99%Q 10] []).
Proof.
  apply (add_then_remove (init_state [mkProduct "P1" "Widget" 9.99%Q 10] []) "P1" 4).
  - exists [mkProduct "P1" "Widget" 9.99%Q 10], [], []. reflexivity.
  - intros [].
  - reflexivity.
Defined.

(** ** The files *)

Lemma dict_get_set_same (d : dict) (k : string) (r : ref) :
  dict_get (dict_set d k r) k = Some r.
Proof.
  induction d as [|[k' r'] d IH]; simpl.
  - now rewrite String.eqb_refl.
  - destruct (String.eqb k' k) eqn:E; simpl; now rewrite E.
Qed.

Lemma dict_get_set_other (d : dict) (k k' : string) (r : ref) :
  k <> k' -> dict_get (dict_set d k r) k' = dict_get d k'.
Proof.
  intros Hne. induction d as [|[k0 r0] d IH]; simpl.
  - apply String.eqb_neq in Hne. now rewrite Hne.
  - destruct (String.eqb k0 k) eqn:E; simpl.
    + apply String.eqb_eq in E. subst k0.
      apply String.eqb_neq in Hne. now rewrite Hne.
    + now rewrite IH.
Qed.

Lemma find_app_first {A} (f : A -> bool) (l l' : list A) :
  find f (l ++ l') = match find f l with Some x => Some x | None => find f l' end.
Proof.
  induction l as [|x l IH]; simpl; [reflexivity|]. now destruct (f x).
Qed.

Lemma last_row_cons (p : Product) (rows : list Product) (pid : string) :
  last_row (p :: rows) pid
  = match last_row rows pid with
    | Some x => Some x
    | None => if String.eqb (product_id p) pid then Some p else None
    end.
Proof.
  unfold last_row. simpl. rewrite find_app_first.
  destruct (find _ (rev rows)); [reflexivity|]. simpl.
  now destruct (String.eqb (product_id p) pid).
Qed.

Lemma load_rows_get rows h d h' d' pid :
  catalog_ok h d -> load_rows rows h d = (h', d') ->
  match last_row rows pid with
  | Some p => exists r, dict_get d' pid = Some r /\ h' !!! r = p
  | None => dict_get d' pid = dict_get d pid /\
            forall r, dict_get d pid = Some r -> h' !!! r = h !!! r
  end.
Proof.
  revert h d. induction rows as [|p rows IH]; intros h d Hd H.
  - simpl in *. inversion H; subst. auto.
  - cbn [load_rows] in H. rewrite last_row_cons.
    assert (catalog_ok (h ++ [p]) (dict_set d (product_id p) (length h))) as Hd1.
    { intros k r Hin. apply dict_set_In in Hin. destruct Hin as [E | Hin].
      - inversion E; subst. rewrite heap_lookup_new, length_app. simpl.
        split; [lia | reflexivity].
      - eapply catalog_ok_ext; eauto using heap_ext_app. }
    specialize (IH _ _ Hd1 H).
    destruct (last_row rows pid) as [x|]; [exact IH|].
    destruct IH as [Hg Hf].
    destruct (String.eqb (product_id p) pid) eqn:E.
    + apply String.eqb_eq in E. subst pid.
      exists (length h). rewrite Hg, dict_get_set_same. split; [reflexivity|].
      rewrite (Hf (length h)); [apply heap_lookup_new | apply dict_get_set_same].
    + apply String.eqb_neq in E. rewrite dict_get_set_other in Hg, Hf by exact E.
      split; [exact Hg|]. intros r Hr. rewrite (Hf r Hr).
      apply heap_lookup_old. apply (Hd pid r). now apply dict_get_In.
Qed.

Lemma init_last_row (rows : list Product) (sale_rows : list (Z * Q * Q))
    (pid : string) :
  match last_row rows pid with
  | Some p => exists r, get_product (init_state rows sale_rows) pid = Some r /\
                        obj (init_state rows sale_rows) r = p
  | None => get_product (init_state rows sale_rows) pid = None
  end.
Proof.
  unfold init_state, get_product, obj.
  destruct (load_rows rows [] []) as [h d] eqn:E. simpl.
  assert (catalog_ok [] []) as H0 by (intros k r []).
  pose proof (load_rows_get rows [] [] h d pid H0 E) as H.
  destruct (last_row rows pid); [exact H | apply H].
Qed.

(** After [load_data], [get_product] of an id gives the product of the
    last row of that id in the file, and [None] when no row has the id: a
    later row of an id replaces an earlier one. *)
Theorem load_last_row_wins (rows : list Product) (sale_rows : list (Z * Q * Q))
    (pid : string) :
  match last_row rows pid with
  | Some p => exists r, get_product (init_state rows sale_rows) pid = Some r /\
                        obj (init_state rows sale_rows) r = p
  | None => get_product (init_state rows sale_rows) pid = None
  end.
Proof. apply init_last_row. Qed.

Lemma find_unique (rows : list Product) (p : Product) :
  NoDup (map product_id rows) -> In p rows ->
  last_row rows (product_id p) = Some p.
Proof.
  induction rows as [|x rows IH]; intros Hnd Hin; [destruct Hin|].
  cbn [map] in Hnd. apply NoDup_cons in Hnd. destruct Hnd as [Hx Hnd].
  rewrite last_row_cons. destruct Hin as [-> | Hin].
  - destruct (last_row rows (product_id p)) as [y|] eqn:E.
    + exfalso. apply Hx. unfold last_row in E. apply find_some in E.
      destruct E as [Hy Ey]. apply String.eqb_eq in Ey. rewrite <- Ey.
      apply list_elem_of_In, in_map. now apply in_rev.
    + now rewrite String.eqb_refl.
  - now rewrite (IH Hnd Hin).
Qed.

Lemma load_rows_keys_fresh rows h d h' d' :
  NoDup (dict_keys d ++ map product_id rows) -> load_rows rows h d = (h', d') ->
  dict_keys d' = dict_keys d ++ map product_id rows.
Proof.
  revert h d. induction rows as [|p rows IH]; simpl; intros h d Hnd H.
  - inversion H; subst. now rewrite app_nil_r.
  - assert (dict_mem d (product_id p) = false) as Hm.
    { apply dict_mem_false, dict_get_None. intros Hin.
      apply NoDup_app in Hnd. destruct Hnd as (_ & Hdis & _).
      apply (Hdis (product_id p)); [now apply list_elem_of_In | left]. }
    assert (dict_keys (dict_set d (product_id p) (length h))
            = dict_keys d ++ [product_id p]) as Hk
      by now rewrite dict_keys_set, Hm.
    assert (NoDup (dict_keys (dict_set d (product_id p) (length h))
                   ++ map product_id rows)) as Hnd1.
    { rewrite Hk, <- app_assoc. exact Hnd. }
    rewrite (IH _ _ Hnd1 H), Hk, <- app_assoc. reflexivity.
Qed.

Lemma catalog_row_ids st :
  catalog_ok (heap st) (products st) ->
  map product_id (map (obj st) (dict_values (products st))) = dict_keys (products st).
Proof.
  unfold dict_values, dict_keys, obj. intros Hd. rewrite !map_map.
  apply map_ext_in. intros [k r] Hin. simpl. now apply Hd.
Qed.

(** In a state of a session, loading the rows that [save_data] writes
    gives a catalog of the same ids in the same order, in which every id
    has a product of the same id, name, price and stock as in memory. *)
Theorem save_load_round_trip (st : State) (io : bool) :
  reachable st ->
  writes (snd (save_data io st))
  = writes st ++ [WriteInventory (map (obj st) (dict_values (products st))) io] /\
  dict_keys (products (init_state (map (obj st) (dict_values (products st))) []))
  = dict_keys (products st) /\
  forall pid r, get_product st pid = Some r ->
    exists r',
      get_product (init_state (map (obj st) (dict_values (products st))) []) pid
      = Some r' /\
      obj (init_state (map (obj st) (dict_values (products st))) []) r' = obj st r.
Proof.
  intros Hr. pose proof (reachable_keys st Hr) as Hk.
  apply reachable_wf in Hr. destruct Hr as [Hd _].
  pose proof (catalog_row_ids st Hd) as Hids.
  split; [reflexivity|]. split.
  - unfold init_state.
    destruct (load_rows (map (obj st) (dict_values (products st))) [] []) as [h d] eqn:E.
    simpl. apply load_rows_keys_fresh in E; [|simpl; now rewrite Hids].
    now rewrite E, Hids.
  - intros pid r Hg. apply dict_get_In in Hg as Hin.
    destruct (Hd pid r Hin) as [_ Hid].
    pose proof (init_last_row (map (obj st) (dict_values (products st))) [] pid) as H.
    assert (last_row (map (obj st) (dict_values (products st))) pid = Some (obj st r))
      as Hl.
    { rewrite <- Hid. apply find_unique; [now rewrite Hids|].
      apply in_map. unfold dict_values.
      change r with (snd (pid, r)). now apply in_map. }
    rewrite Hl in H. exact H.
Qed.

Lemma save_load_round_trip_witness :
  writes (snd (save_data true widget_state))
  = writes widget_state
    ++ [WriteInventory (map (obj widget_state) (dict_values (products widget_state))) true] /\
  dict_keys (products (init_state (map (obj widget_state)
                                     (dict_values (products widget_state))) []))
  = dict_keys (products widget_state) /\
  forall pid r, get_product widget_state pid = Some r ->
    exists r',
      get_product (init_state (map (obj widget_state)
                                 (dict_values (products widget_state))) []) pid
      = Some r' /\
      obj (init_state (map (obj widget_state)
                         (dict_values (products widget_state))) []) r'
      = obj widget_state r.
Proof.
  apply (save_load_round_trip widget_state true).
  exact widget_state_reachable.
Defined.

(** A call of [add_product], [update_product] or [delete_product] that
    returns [True] has rewritten the catalog file, once and as its last
    effect on the files, with the rows of the catalog as it is in memory
    after the call. *)
Theorem catalog_saved_on_success (st : State) (pid nm : string) (pr : Q) (qty : Z)
    (onm : option string) (opr : option Q) (oqty : option Z) :
  (fst (add_product st pid nm pr qty true) = true ->
   writes (snd (add_product st pid nm pr qty true))
   = writes st
     ++ [WriteInventory
           (map (obj (snd (add_product st pid nm pr qty true)))
              (dict_values (products (snd (add_product st pid nm pr qty true)))))
           true]) /\
  (fst (update_product st pid onm opr oqty true) = true ->
   writes (snd (update_product st pid onm opr oqty true))
   = writes st
     ++ [WriteInventory
           (map (obj (snd (update_product st pid onm opr oqty true)))
              (dict_values (products (snd (update_product st pid onm opr oqty true)))))
           true]) /\
  (fst (delete_product st pid true) = true ->
   writes (snd (delete_product st pid true))
   = writes st
     ++ [WriteInventory
           (map (obj (snd (delete_product st pid true)))
              (dict_values (products (snd (delete_product st pid true)))))
           true]) /\
  fst (add_product st pid nm pr qty false) = false /\
  fst (update_product st pid onm opr oqty false) = false /\
  fst (delete_product st pid false) = false.
Proof.
  split; [|split; [|split; [|split; [|split]]]].
  - unfold add_product. destruct (dict_mem (products st) pid); [discriminate|].
    destruct (Qle_bool pr 0); [discriminate|]. destruct (qty <? 0); [discriminate|].
    reflexivity.
  - unfold update_product. destruct (dict_get (products st) pid) as [r|];
      [|discriminate].
    destruct onm as [n|]; (destruct opr as [p|]; [destruct (Qle_bool p 0)|]);
      try discriminate;
      (destruct oqty as [q|]; [destruct (q <? 0)|]); try discriminate;
      reflexivity.
  - unfold delete_product. destruct (dict_mem (products st) pid); [|discriminate].
    reflexivity.
  - unfold add_product. destruct (dict_mem (products st) pid); [reflexivity|].
    destruct (Qle_bool pr 0); [reflexivity|]. now destruct (qty <? 0).
  - unfold update_product. destruct (dict_get (products st) pid) as [r|];
      [|reflexivity].
    destruct onm as [n|]; (destruct opr as [p|]; [destruct (Qle_bool p 0)|]);
      try reflexivity;
      (destruct oqty as [q|]; [destruct (q <? 0)|]); reflexivity.
  - unfold delete_product. now destruct (dict_mem (products st) pid).
Qed.

Lemma catalog_saved_on_success_witness :
  writes (snd (update_product widget_state "P1" None (Some 5%Q) None true))
  = writes widget_state
    ++ [WriteInventory [mkProduct "P1" "Widget" 5%Q 10] true].
Proof.
  destruct (catalog_saved_on_success widget_state "P1" "" 0%Q 0
              None (Some 5%Q) None) as (_ & H & _).
  rewrite H; reflexivity.
Defined.

(** A [checkout] that returns a Sale rewrites the two files, first the
    sale history with the new Sale as its last row, then the catalog with
    the stock after the sale; the Sale and the state in memory are the same
    whether or not the rewrites complete. *)
Theorem checkout_writes (st : State) (d : Q) (now : Z) (io_sales io_inv : bool)
    (sale : Sale) (st' : State) :
  checkout st d now io_sales io_inv = Returned (Some sale) st' ->
  writes st'
  = writes st
    ++ [WriteSales (map sale_row (sales st ++ [sale])) io_sales;
        WriteInventory (map (obj st') (dict_values (products st'))) io_inv] /\
  forall io_sales' io_inv', exists st'',
    checkout st d now io_sales' io_inv' = Returned (Some sale) st'' /\
    heap st'' = heap st' /\ products st'' = products st' /\
    cart st'' = cart st' /\ sales st'' = sales st' /\ stdout st'' = stdout st'.
Proof.
  intros H. apply checkout_returns_sale in H.
  destruct H as (Hne & Hr & Hs & h' & Ha & ->). split.
  - simpl. rewrite <- app_assoc. reflexivity.
  - intros io1 io2. eexists. split.
    + apply checkout_returns_sale. repeat split; try assumption.
      exists h'. split; [exact Ha | reflexivity].
    + repeat split.
Qed.

Lemma checkout_writes_witness :
  exists sale st',
    checkout widget_state 0%Q 0 true false = Returned (Some sale) st' /\
    writes st'
    = writes widget_state
      ++ [WriteSales (map sale_row (sales widget_state ++ [sale])) true;
          WriteInventory (map (obj st') (dict_values (products st'))) false] /\
    forall io_sales' io_inv', exists st'',
      checkout widget_state 0%Q 0 io_sales' io_inv' = Returned (Some sale) st'' /\
      heap st'' = heap st' /\ products st'' = products st' /\
      cart st'' = cart st' /\ sales st'' = sales st' /\ stdout st'' = stdout st'.
Proof.
  eexists _, _. apply and_wlog_r; [reflexivity|].
  apply (checkout_writes widget_state 0%Q 0 true false).
Defined.

(** In a state of a session, loading the rows that [save_sales] writes
    gives the sales of the history in their order, each with its time,
    total, discount and final amount, and with no line: the lines of a
    sale are not in the file. *)
Theorem sales_reload (st : State) :
  reachable st ->
  map load_sale (map read_sale_row (map sale_row (sales st)))
  = map (fun s => mkSale [] (total_amount s) (datetime s) (discount s) (final_amount s))
      (sales st).
Proof.
  intros Hr. pose proof (reachable_final_amounts st Hr) as Hf.
  rewrite !map_map. apply map_ext_in. intros s Hin.
  unfold sale_row, read_sale_row, load_sale, Sale_init. simpl.
  now rewrite (Hf s Hin).
Qed.

Lemma sales_reload_witness :
  map load_sale (map read_sale_row (map sale_row (sales oversold_state)))
  = map (fun s => mkSale [] (total_amount s) (datetime s) (discount s) (final_amount s))
      (sales oversold_state).
Proof.
  apply (sales_reload oversold_state).
  exists [], [], oversold_ops. reflexivity.
Defined.

(** ** A discount and the checkout *)




(** ** Reports *)

(** After a [checkout] that returns a Sale, the report of a day is the
    report before it with the Sale added at its end when the day is that of
    the checkout, and the report before it otherwise. *)
Theorem daily_sales_after_checkout (date : Z -> Z) (st : State) (d : Q) (now : Z)
    (io_sales io_inv : bool) (sale : Sale) (st' : State)
    (target_date : option Z) (today : Z) :
  checkout st d now io_sales io_inv = Returned (Some sale) st' ->
  get_daily_sales date st' target_date today
  = get_daily_sales date st target_date today
    ++ (if date now =? match target_date with Some t => t | None => date today end
        then [sale] else []).
Proof.
  intros H. apply checkout_returns_sale in H.
  destruct H as (_ & _ & -> & h' & _ & ->).
  unfold get_daily_sales. simpl. rewrite List.filter_app. reflexivity.
Qed.

Lemma daily_sales_after_checkout_witness :
  exists sale st',
    checkout widget_state 0%Q 86400 true true = Returned (Some sale) st' /\
    get_daily_sales (fun t => t / 86400) st' None 90000
    = get_daily_sales (fun t => t / 86400) widget_state None 90000
      ++ (if 86400 / 86400 =? 90000 / 86400 then [sale] else []).
Proof.
  eexists _, _. apply and_wlog_r; [reflexivity|].
  apply (daily_sales_after_checkout (fun t => t / 86400) widget_state 0%Q 86400
           true true).
Defined.

Lemma filter_sublist_mono {A} (f g : A -> bool) (l : list A) :
  (forall x, f x = true -> g x = true) ->
  List.filter f l `sublist_of` List.filter g l.
Proof.
  intros Hfg. induction l as [|x l IH]; simpl; [constructor|].
  destruct (f x) eqn:E.
  - rewrite (Hfg x E). now apply sublist_skip.
  - destruct (g x); [now apply sublist_cons | exact IH].
Qed.

(** The low stock report holds the products of the catalog whose stock is
    at most the threshold, and no other; with a higher threshold the report
    holds the products of the lower one, in the same order, among
    others. *)
Theorem low_stock_report (st : State) (t1 t2 : Z) :
  t1 <= t2 ->
  (forall r, In r (get_low_stock_products st t1) <->
     In r (dict_values (products st)) /\ stock_quantity (obj st r) <= t1) /\
  get_low_stock_products st t1 `sublist_of` get_low_stock_products st t2.
Proof.
  intros Ht. unfold get_low_stock_products. split.
  - intros r. now rewrite filter_In, Z.leb_le.
  - apply filter_sublist_mono. intros r H. apply Z.leb_le in H. apply Z.leb_le. lia.
Qed.

Lemma low_stock_report_witness :
  (forall r, In r (get_low_stock_products oversold_state 0) <->
     In r (dict_values (products oversold_state)) /\
     stock_quantity (obj oversold_state r) <= 0) /\
  get_low_stock_products oversold_state 0
    `sublist_of` get_low_stock_products oversold_state 5.
Proof.
  apply (low_stock_report oversold_state 0 5). lia.
Defined.

(** In a state of a session, after a [checkout] that returns a Sale the
    product of a line of the cart is in the low stock report exactly when
    its stock before the sale, less the quantity of the line, is at most
    the threshold. *)
Theorem low_stock_after_checkout (st : State) (d : Q) (now : Z)
    (io_sales io_inv : bool) (sale : Sale) (st' : State) (threshold : Z)
    (it : OrderItem) (r : ref) :
  reachable st ->
  checkout st d now io_sales io_inv = Returned (Some sale) st' ->
  In it (cart st) -> get_product st (line_id (heap st) it) = Some r ->
  (In r (get_low_stock_products st' threshold) <->
   stock_quantity (obj st r) - quantity it <= threshold).
Proof.
  intros Hr H Hin Hg. apply reachable_wf in Hr. destruct Hr as [Hd [_ Hnd]].
  apply checkout_returns_sale in H. destruct H as (_ & _ & _ & h' & Ha & ->).
  destruct (adjust_stock_stock _ _ _ _ Hd Hnd Ha) as [Hsold _].
  unfold get_low_stock_products, obj. simpl.
  rewrite filter_In, Z.leb_le, (Hsold it r Hin Hg). split; [tauto|].
  intros Hle. split; [|exact Hle].
  apply dict_get_In in Hg. unfold dict_values.
  change r with (snd (line_id (heap st) it, r)). now apply in_map.
Qed.

Lemma low_stock_after_checkout_witness :
  exists sale st',
    checkout widget_state 0%Q 0 true true = Returned (Some sale) st' /\
    (In 0%nat (get_low_stock_products st' 7) <-> 10 - 3 <= 7).
Proof.
  eexists _, _. apply and_wlog_r; [reflexivity|]. intros H.
  apply (low_stock_after_checkout widget_state 0%Q 0 true true _ _ 7
           (mkOrderItem 0%nat 3 29.97%Q) 0%nat widget_state_reachable H).
  - now left.
  - reflexivity.
Defined.
